(** * Bybit OHLCV fetcher: a shallow embedding of [bybit/fetch_bybit.py]

    The development follows the Python module function by function:
    - [_parse_date_to_timestamp] (with the part of [datetime.strptime]
      and [datetime.timestamp] that the two format strings exercise),
    - [_make_api_request] over an explicit transport,
    - the pagination loop of [get_ohlcv] as a fuelled state-passing
      function that records every call it issues,
    - [_convert_to_dataframe], the lower-bound filter and the final sort,
    - [get_available_symbols],
    and, of [mcp_server.py], the tools [fetch_historical_ohlcv] and
    [get_trading_symbols] and the date strings [analyze_price_movement]
    hands to [get_ohlcv].

    Modelling conventions.
    - The provider is outside the program.  It is a state machine
      [http_get : World -> Params -> HttpReply * World]; a theorem that
      holds for every provider quantifies over it.
    - A raised exception is the [Raise] branch of [result].  The
      [while True] loop may run forever, so the loop takes fuel and the
      outcome [OutOfFuel] stands for "has not returned yet".
    - Timestamps are integers ([Z]), taken to lie in the range in which
      pandas holds an integer exactly in either of its number types; the
      narrower range of the dates it can show is modelled.  A timestamp
      cell is either an integer numeral or not a number; non-integer
      decimals are not modelled.  Every row has its timestamp cell.  The
      price and volume cells are carried as text: their coercion to
      floating point plays no part below.
    - Date strings are 7-bit text: the digits and blanks of other scripts,
      which [strptime] also accepts, are not modelled.
    - [logger] calls and [time.sleep] have no effect on the values
      computed and are left out. *)

From Stdlib Require Import ZArith Lia Bool Ascii String.
From stdpp Require Import base tactics option strings numbers sorting pretty list.

Local Open Scope string_scope.
Local Open Scope list_scope.
Local Open Scope Z_scope.

(** ** Exceptions and results *)

Inductive exn :=
| ValueError (msg : string)
| RequestException (msg : string)
| KeyError (key : string)
| OtherError (msg : string).

Inductive result (A : Type) :=
| Ok (a : A)
| Raise (e : exn).
Arguments Ok {A} a.
Arguments Raise {A} e.

Definition rbind {A B} (r : result A) (k : A -> result B) : result B :=
  match r with
  | Ok a => k a
  | Raise e => Raise e
  end.

Notation "x <-! r ; k" := (rbind r (fun x => k))
  (at level 100, r at next level, right associativity, only parsing).

(** ** Python truthiness *)

(** [if n:] for an [int]. *)
Definition truthy_int (n : Z) : bool := negb (n =? 0).

(** [if x:] for an [Optional[int]]: [None] and [0] are falsy. *)
Definition truthy_opt (x : option Z) : bool :=
  match x with
  | Some n => truthy_int n
  | None => false
  end.

(** [if s:] for an [Optional[str]]: [None] and the empty string are falsy. *)
Definition truthy_str (s : option string) : bool :=
  match s with
  | Some (String _ _) => true
  | _ => false
  end.

(** ** Dates: [datetime.strptime] for the two formats, and [timestamp()] *)

Module Strptime.

Definition code (c : ascii) : Z := Z.of_N (N_of_ascii c).

Definition is_digit (c : ascii) : bool := (48 <=? code c) && (code c <=? 57).

Definition digit (c : ascii) : Z := if is_digit c then code c - 48 else 0.

(** [c] lies in the character class [[lo-hi]]. *)
Definition in_class (lo hi : Z) (c : ascii) : bool :=
  (48 + lo <=? code c) && (code c <=? 48 + hi).

Definition is_char (x c : ascii) : bool := code c =? code x.

(** The characters [\s] matches, among the 7-bit ones. *)
Definition is_space (c : ascii) : bool :=
  ((9 <=? code c) && (code c <=? 13)) ||
  ((28 <=? code c) && (code c <=? 32)).

(** A directive is a regular expression with alternatives of one or two
    characters, tried with the two-character ones first.  Each directive
    below is followed by a literal, by white space or by the end of the
    input, none of which is a digit, so committing to the first
    alternative that matches loses no parse. *)
Definition directive (two : ascii -> ascii -> bool) (one : ascii -> bool)
    (s : string) : option (Z * string) :=
  match s with
  | String a (String b rest) =>
      if two a b then Some (10 * digit a + digit b, rest)
      else if one a then Some (digit a, String b rest)
      else None
  | String a EmptyString =>
      if one a then Some (digit a, EmptyString) else None
  | EmptyString => None
  end.

(** [%Y]: [\d\d\d\d]. *)
Definition dir_Y (s : string) : option (Z * string) :=
  match s with
  | String a (String b (String c (String d rest))) =>
      if is_digit a && is_digit b && is_digit c && is_digit d
      then Some (1000 * digit a + 100 * digit b + 10 * digit c + digit d, rest)
      else None
  | _ => None
  end.

(** [%m]: [1[0-2]|0[1-9]|[1-9]]. *)
Definition dir_m : string -> option (Z * string) :=
  directive
    (fun a b => (is_char "1" a && in_class 0 2 b) || (is_char "0" a && in_class 1 9 b))
    (in_class 1 9).

(** [%d]: [3[0-1]|[1-2]\d|0[1-9]|[1-9]| [1-9]]. *)
Definition dir_d : string -> option (Z * string) :=
  directive
    (fun a b => (is_char "3" a && in_class 0 1 b) || (in_class 1 2 a && is_digit b)
                || (is_char "0" a && in_class 1 9 b) || (is_char " " a && in_class 1 9 b))
    (in_class 1 9).

(** [%H]: [2[0-3]|[0-1]\d|\d]. *)
Definition dir_H : string -> option (Z * string) :=
  directive
    (fun a b => (is_char "2" a && in_class 0 3 b) || (in_class 0 1 a && is_digit b))
    is_digit.

(** [%M]: [[0-5]\d|\d]. *)
Definition dir_M : string -> option (Z * string) :=
  directive (fun a b => in_class 0 5 a && is_digit b) is_digit.

(** [%S]: [6[0-1]|[0-5]\d|\d]. *)
Definition dir_S : string -> option (Z * string) :=
  directive
    (fun a b => (is_char "6" a && in_class 0 1 b) || (in_class 0 5 a && is_digit b))
    is_digit.

(** A literal character of the format. *)
Definition lit (x : ascii) (s : string) : option string :=
  match s with
  | String a rest => if is_char x a then Some rest else None
  | EmptyString => None
  end.

Fixpoint skip_spaces (s : string) : string :=
  match s with
  | String a rest => if is_space a then skip_spaces rest else s
  | EmptyString => s
  end.

(** A blank in the format is compiled to [\s+]. *)
Definition spaces1 (s : string) : option string :=
  match s with
  | String a rest => if is_space a then Some (skip_spaces rest) else None
  | EmptyString => None
  end.

(** The matched text must be the whole input. *)
Definition at_end (s : string) : option unit :=
  match s with
  | EmptyString => Some tt
  | _ => None
  end.

Record fields := {
  f_year : Z; f_month : Z; f_day : Z;
  f_hour : Z; f_minute : Z; f_second : Z
}.

(** The regular expression of ['%Y-%m-%d']. *)
Definition match_date (s : string) : option fields :=
  '(y, s) ← dir_Y s; s ← lit "-" s;
  '(m, s) ← dir_m s; s ← lit "-" s;
  '(d, s) ← dir_d s; _ ← at_end s;
  Some {| f_year := y; f_month := m; f_day := d;
          f_hour := 0; f_minute := 0; f_second := 0 |}.

(** The regular expression of ['%Y-%m-%d %H:%M:%S']. *)
Definition match_datetime (s : string) : option fields :=
  '(y, s) ← dir_Y s; s ← lit "-" s;
  '(m, s) ← dir_m s; s ← lit "-" s;
  '(d, s) ← dir_d s; s ← spaces1 s;
  '(hh, s) ← dir_H s; s ← lit ":" s;
  '(mm, s) ← dir_M s; s ← lit ":" s;
  '(ss, s) ← dir_S s; _ ← at_end s;
  Some {| f_year := y; f_month := m; f_day := d;
          f_hour := hh; f_minute := mm; f_second := ss |}.

(** The calendar of [datetime]: proleptic Gregorian ordinals. *)
Definition is_leap (y : Z) : bool :=
  (y mod 4 =? 0) && (negb (y mod 100 =? 0) || (y mod 400 =? 0)).

Definition days_in_month (y m : Z) : Z :=
  if m =? 2 then (if is_leap y then 29 else 28)
  else if (m =? 4) || (m =? 6) || (m =? 9) || (m =? 11) then 30
  else 31.

Definition days_before_year (y : Z) : Z :=
  let p := y - 1 in p * 365 + p / 4 - p / 100 + p / 400.

Definition days_before_month (y m : Z) : Z :=
  nth (Z.to_nat m) [0; 0; 31; 59; 90; 120; 151; 181; 212; 243; 273; 304; 334] 0
  + (if (2 <? m) && is_leap y then 1 else 0).

Definition ymd2ord (y m d : Z) : Z :=
  days_before_year y + days_before_month y m + d.

(** The constructor of [datetime] checks its arguments. *)
Definition valid (f : fields) : bool :=
  (1 <=? f_year f) && (f_year f <=? 9999)
  && (1 <=? f_month f) && (f_month f <=? 12)
  && (1 <=? f_day f) && (f_day f <=? days_in_month (f_year f) (f_month f))
  && (0 <=? f_hour f) && (f_hour f <=? 23)
  && (0 <=? f_minute f) && (f_minute f <=? 59)
  && (0 <=? f_second f) && (f_second f <=? 59).

(** [int(dt.replace(tzinfo=timezone.utc).timestamp() * 1000)]. *)
Definition timestamp_ms (f : fields) : Z :=
  (((ymd2ord (f_year f) (f_month f) (f_day f) - ymd2ord 1970 1 1) * 86400
    + f_hour f * 3600 + f_minute f * 60 + f_second f) * 1000).

Fixpoint has_blank (s : string) : bool :=
  match s with
  | String a rest => is_char " " a || has_blank rest
  | EmptyString => false
  end.

End Strptime.

Definition _parse_date_to_timestamp (date_str : string) : result Z :=
  let parsed :=
    if Strptime.has_blank date_str
    then Strptime.match_datetime date_str
    else Strptime.match_date date_str in
  match parsed with
  | Some f =>
      if Strptime.valid f then Ok (Strptime.timestamp_ms f)
      else Raise (ValueError ("Invalid date format: " +:+ date_str +:+
                              ". Use 'YYYY-MM-DD' or 'YYYY-MM-DD HH:MM:SS'"))
  | None => Raise (ValueError ("Invalid date format: " +:+ date_str +:+
                               ". Use 'YYYY-MM-DD' or 'YYYY-MM-DD HH:MM:SS'"))
  end.


(** ** Rows, candles and the transport *)

Definition MAX_LIMIT : nat := 1000.

(** One cell of the timestamp column as the provider sent it. *)
Inductive Cell :=
| CInt (z : Z)   (* a numeral that [int()] and [pd.to_numeric] read as [z] *)
| CBad.          (* anything that is not a number *)

(** One row [[ts, open, high, low, close, volume, turnover]] as the
    provider sent it: the timestamp cell, which every row has, and the
    cells after it, however many there are. *)
Record Row := {
  row_ts : Cell;
  row_ohlcv : list string
}.

(** One line of the returned frame; [timestamp = None] is pandas' NaN.
    [ohlcv] holds the six cells [open] to [turnover]; [None] is a cell the
    row did not have. *)
Record Candle := {
  timestamp : option Z;
  ohlcv : list (option string)
}.

(** The query string of a kline request.  [p_end] and [p_start] are the
    optional keys ['end'] and ['start'] of the [params] dictionary. *)
Record Params := {
  p_category : string;
  p_symbol : string;
  p_interval : string;
  p_limit : nat;
  p_end : option Z;
  p_start : option Z
}.

(** The decoded JSON body [{retCode, retMsg, result: {list}}]; a field is
    [None] when its key is absent. *)
Record Body (A : Type) := {
  retCode : option Z;
  retMsg : option string;
  result_list : option (list A)
}.
Arguments retCode {A} _.
Arguments retMsg {A} _.
Arguments result_list {A} _.

(** What [requests.get(...)], [raise_for_status()] and [response.json()]
    produce together: an exception from one of them, or a decoded body. *)
Inductive HttpReply (A : Type) :=
| Failed (e : exn)
| Json (body : Body A).
Arguments Failed {A} e.
Arguments Json {A} body.

(** A logged call: what was asked, and what [_make_api_request] gave back. *)
Abbreviation Call := (Params * result (Body Row))%type.

(** How one run of the pagination loop ends. *)
Inductive Outcome (A : Type) :=
| Returned (a : A)
| Raised (e : exn)
| OutOfFuel.
Arguments Returned {A} a.
Arguments Raised {A} e.
Arguments OutOfFuel {A}.

(** What the body of the [while True] loop decides after a page. *)
Inductive Control :=
| Break
| Continue (current_end : Z).

(** [int(cell)]. *)
Definition int (c : Cell) : result Z :=
  match c with
  | CInt z => Ok z
  | CBad => Raise (ValueError "invalid literal for int() with base 10")
  end.

(** [pd.to_numeric(cell, errors='coerce')]. *)
Definition to_numeric (c : Cell) : option Z :=
  match c with
  | CInt z => Some z
  | CBad => None
  end.

(** [response.get('result', {}).get('list', [])]. *)
Definition rows_of {A} (response : Body A) : list A :=
  default [] (result_list response).

(** [_make_api_request]'s check of a decoded body. *)
Definition check_body {A} (data : Body A) : result (Body A) :=
  if bool_decide (retCode data = Some 0) then Ok data
  else Raise (RequestException
                ("Bybit API error: " +:+ default "Unknown API error" (retMsg data))).

(** [int(data[-1][0])]: the last row of a page is its oldest. *)
Definition oldest_timestamp (data : list Row) : result Z :=
  match last data with
  | Some row => int (row_ts row)
  | None => Raise (OtherError "list index out of range")
  end.

(** [start_timestamp and oldest_timestamp <= start_timestamp]. *)
Definition start_reached (start_timestamp : option Z) (oldest : Z) : bool :=
  match start_timestamp with
  | Some s => truthy_int s && bool_decide (oldest ≤ s)
  | None => false
  end.

(** The tail of the loop body, from [oldest_timestamp = ...] on. *)
Definition after_page (start_timestamp : option Z) (data : list Row) : result Control :=
  oldest <-! oldest_timestamp data;
  if start_reached start_timestamp oldest then Ok Break
  else if bool_decide (length data < MAX_LIMIT)%nat then Ok Break
  else Ok (Continue (oldest - 1)).

(** The [params] dictionary of one iteration. *)
Definition build_params (category symbol interval : string)
    (start_timestamp : option Z) (current_end : Z) : Params :=
  {| p_category := category;
     p_symbol := symbol;
     p_interval := interval;
     p_limit := MAX_LIMIT;
     p_end := if truthy_int current_end then Some current_end else None;
     p_start := if truthy_opt start_timestamp && truthy_int current_end
                then start_timestamp else None |}.

(** ** Assembling the frame *)

(** The line of the frame for a row; [pd.DataFrame] fills the cells a row
    lacks with missing values. *)
Definition row_to_candle (r : Row) : Candle :=
  {| timestamp := to_numeric (row_ts r);
     ohlcv := resize 6 None (Some <$> row_ohlcv r) |}.

(** The number of cells of a row. *)
Definition row_width (r : Row) : nat := S (length (row_ohlcv r)).

(** The number of columns [pd.DataFrame] finds in [data]: that of its
    widest row. *)
Definition widest (data : list Row) : nat := max_list (row_width <$> data).

(** The milliseconds [pd.to_datetime(..., unit='ms')] can represent: those
    whose nanoseconds fit 64 bits. *)
Definition representable (t : Z) : bool :=
  (-9223372036854 <=? t) && (t <=? 9223372036854).

(** [pd.to_datetime(df['timestamp'], unit='ms', utc=True)]: NaN becomes
    NaT, a timestamp out of range raises [OutOfBoundsDatetime], which is a
    [ValueError]; the text of its message is not carried. *)
Definition to_datetime (timestamps : list (option Z)) : result unit :=
  if forallb (fun t => from_option representable true t) timestamps then Ok tt
  else Raise (ValueError "Out of bounds nanosecond timestamp").

(** The column lists of the two branches on [category] are the same, so
    the frame does not depend on it.  [pd.DataFrame(data, columns=columns)]
    raises unless the widest row has the seven cells the columns name. *)
Definition _convert_to_dataframe (data : list Row) (category : string)
    : result (list Candle) :=
  match data with
  | [] => Ok []
  | _ :: _ =>
      if bool_decide (widest data = 7%nat) then
        let df := row_to_candle <$> data in
        _ <-! to_datetime (timestamp <$> df);
        Ok df
      else
        Raise (ValueError ("7 columns passed, passed data had "
                           +:+ pretty (widest data) +:+ " columns"))
  end.

(** [df['timestamp'] >= start_timestamp], row by row; NaN compares false. *)
Definition at_or_after (s : Z) (c : Candle) : bool :=
  match timestamp c with
  | Some t => bool_decide (s ≤ t)
  | None => false
  end.

(** The order of [sort_values('timestamp')]: ascending, NaN last. *)
Definition ts_le (a b : option Z) : Prop :=
  match a, b with
  | Some x, Some y => x ≤ y
  | _, None => True
  | None, Some _ => False
  end.

Definition candle_le (c1 c2 : Candle) : Prop :=
  ts_le (timestamp c1) (timestamp c2).

Global Instance ts_le_dec : RelDecision ts_le.
Proof. intros [x|] [y|]; simpl; apply _. Defined.

Global Instance candle_le_dec : RelDecision candle_le.
Proof. intros c1 c2. unfold candle_le. apply _. Defined.

Global Instance ts_le_trans : Transitive ts_le.
Proof. intros [x|] [y|] [z|]; simpl; try done; lia. Qed.

Global Instance ts_le_total : Total ts_le.
Proof. intros [x|] [y|]; simpl; try lia; auto. Qed.

Global Instance candle_le_trans : Transitive candle_le.
Proof. intros c1 c2 c3. unfold candle_le. apply ts_le_trans. Qed.

Global Instance candle_le_total : Total candle_le.
Proof. intros c1 c2. unfold candle_le. apply ts_le_total. Qed.

Definition sort_values (df : list Candle) : list Candle :=
  merge_sort candle_le df.

(** The filter on the start and the final sort. *)
Definition filter_and_sort (df : list Candle) (start_timestamp : option Z)
    : list Candle :=
  let df := if truthy_opt start_timestamp
            then match start_timestamp with
                 | Some s => filter (fun c => at_or_after s c = true) df
                 | None => df
                 end
            else df in
  sort_values df.

(** The part of [get_ohlcv] after the loop. *)
Definition assemble (all_data : list Row) (category : string)
    (start_timestamp : option Z) : result (list Candle) :=
  match all_data with
  | [] => Ok []
  | _ :: _ =>
      df <-! _convert_to_dataframe all_data category;
      Ok (filter_and_sort df start_timestamp)
  end.

Definition valid_categories : list string :=
  ["spot"; "linear"; "inverse"; "option"].

(** [start_timestamp] as computed at the top of [get_ohlcv]. *)
Definition resolve_start (start_date : option string) : result (option Z) :=
  match start_date with
  | Some d => if truthy_str start_date
              then (t <-! _parse_date_to_timestamp d; Ok (Some t))
              else Ok None
  | None => Ok None
  end.

(** [end_timestamp] as computed at the top of [get_ohlcv]; [now_ms] is the
    reading of the clock. *)
Definition resolve_end (end_date : option string) (now_ms : Z) : result Z :=
  match end_date with
  | Some d => if truthy_str end_date then _parse_date_to_timestamp d else Ok now_ms
  | None => Ok now_ms
  end.

(** What [get_ohlcv] does with the outcome of its loop: a raised
    exception goes through, an accumulator is assembled, and what
    assembling it raises is raised. *)
Definition finish (category : string) (start_timestamp : option Z)
    (o : Outcome (list Row)) : Outcome (list Candle) :=
  match o with
  | Returned all_data =>
      match assemble all_data category start_timestamp with
      | Ok df => Returned df
      | Raise e => Raised e
      end
  | Raised e => Raised e
  | OutOfFuel => OutOfFuel
  end.

(** ** The driver *)

Section Driver.

Context {World : Type}.
Variable http_get : World -> Params -> HttpReply Row * World.

Definition _make_api_request (w : World) (params : Params)
    : result (Body Row) * World :=
  match http_get w params with
  | (Failed e, w') => (Raise e, w')
  | (Json data, w') => (check_body data, w')
  end.

(** The [while True] loop, with the accumulator, the cursor and the log
    of calls as explicit state. *)
Fixpoint fetch_loop (category symbol interval : string)
    (start_timestamp : option Z) (fuel : nat) (w : World)
    (all_data : list Row) (current_end : Z) (calls : list Call)
    : Outcome (list Row) * World * list Call :=
  match fuel with
  | O => (OutOfFuel, w, calls)
  | S fuel' =>
      let params := build_params category symbol interval start_timestamp current_end in
      let '(response, w') := _make_api_request w params in
      let calls' := calls ++ [(params, response)] in
      match response with
      | Raise e => (Raised e, w', calls')
      | Ok body =>
          match rows_of body with
          | [] => (Returned all_data, w', calls')
          | (_ :: _) as data =>
              let all_data' := all_data ++ data in
              match after_page start_timestamp data with
              | Raise e => (Raised e, w', calls')
              | Ok Break => (Returned all_data', w', calls')
              | Ok (Continue current_end') =>
                  fetch_loop category symbol interval start_timestamp
                    fuel' w' all_data' current_end' calls'
              end
          end
      end
  end.

Definition get_ohlcv (fuel : nat) (w : World) (now_ms : Z)
    (symbol interval : string) (start_date end_date : option string)
    (category : string) : Outcome (list Candle) * World * list Call :=
  if bool_decide (symbol = "") then
    (Raised (ValueError "Symbol cannot be empty"), w, [])
  else if bool_decide (interval = "") then
    (Raised (ValueError "Interval cannot be empty"), w, [])
  else if bool_decide (category ∉ valid_categories) then
    (Raised (ValueError
       "Category must be one of ['spot', 'linear', 'inverse', 'option']"), w, [])
  else
    match resolve_start start_date with
    | Raise e => (Raised e, w, [])
    | Ok start_timestamp =>
        match resolve_end end_date now_ms with
        | Raise e => (Raised e, w, [])
        | Ok end_timestamp =>
            let '(o, w', calls) :=
              fetch_loop category symbol interval start_timestamp
                fuel w [] end_timestamp [] in
            (finish category start_timestamp o, w', calls)
        end
    end.

End Driver.

(** ** Symbol discovery *)

(** One entry of the instruments list; [None] when it has no ['symbol']. *)
Record Instrument := {
  inst_symbol : option string
}.

(** [[instrument['symbol'] for instrument in instruments]]. *)
Fixpoint symbols_of (instruments : list Instrument) : result (list string) :=
  match instruments with
  | [] => Ok []
  | instrument :: rest =>
      match inst_symbol instrument with
      | Some s => (symbols <-! symbols_of rest; Ok (s :: symbols))
      | None => Raise (KeyError "symbol")
      end
  end.

(** [sorted(symbols)] on strings. *)
Definition sorted (symbols : list string) : list string :=
  merge_sort String.le symbols.

Section Symbols.

Context {World : Type}.
Variable http_get_instruments : World -> string -> HttpReply Instrument * World.

(** The body of the [try] block. *)
Definition try_available_symbols (w : World) (category : string)
    : result (list string) * World :=
  match http_get_instruments w category with
  | (Failed e, w') => (Raise e, w')
  | (Json data, w') =>
      (data <-! check_body data;
       symbols <-! symbols_of (rows_of data);
       Ok (sorted symbols), w')
  end.

(** [except Exception: return []]. *)
Definition get_available_symbols (w : World) (category : string)
    : result (list string) * World :=
  match try_available_symbols w category with
  | (Ok symbols, w') => (Ok symbols, w')
  | (Raise _, w') => (Ok [], w')
  end.

End Symbols.

(** ** Two providers to run the driver against *)

Definition empty_body {A} : Body A :=
  {| retCode := Some 0; retMsg := Some "OK"; result_list := Some [] |}.

Definition page_body {A} (rows : list A) : Body A :=
  {| retCode := Some 0; retMsg := Some "OK"; result_list := Some rows |}.

(** A fake provider that replays a script of replies whatever it is
    asked, and has nothing more to give once the script is over. *)
Definition script_get {Q A} (script : list (HttpReply A)) (request : Q)
    : HttpReply A * list (HttpReply A) :=
  match script with
  | reply :: rest => (reply, rest)
  | [] => (Json empty_body, [])
  end.

(** A row of seven cells: the timestamp [t] and six cells reading zero. *)
Definition plain_row (t : Z) : Row :=
  {| row_ts := CInt t; row_ohlcv := replicate 6 "0" |}.

(** [n] candles spaced [step] apart, newest first, the oldest at [oldest]. *)
Fixpoint descending_from (n : nat) (oldest step : Z) : list Row :=
  match n with
  | O => []
  | S n' => plain_row (oldest + Z.of_nat n' * step) :: descending_from n' oldest step
  end.

Definition within (params : Params) (t : Z) : bool :=
  match p_end params with Some e => bool_decide (t ≤ e) | None => true end
  && match p_start params with Some s => bool_decide (s ≤ t) | None => true end.

(** A stateless provider over a fixed history (timestamps, newest first):
    it answers with the newest [limit] candles inside the window asked. *)
Definition history_get (history : list Z) (w : unit) (params : Params)
    : HttpReply Row * unit :=
  (Json (page_body (plain_row <$>
           take (p_limit params) (filter (fun t => within params t = true) history))), w).

(** ** The provider's side of the contract *)

(** The timestamp of a row as the frame will show it. *)
Definition row_time (r : Row) : option Z := to_numeric (row_ts r).

(** [r1] is strictly newer than [r2]. *)
Definition row_newer (r1 r2 : Row) : Prop :=
  exists a b, row_time r1 = Some a /\ row_time r2 = Some b /\ b < a.

(** A page is newest first: every timestamp decodes, and they strictly
    decrease along the page. *)
Definition newest_first (data : list Row) : Prop :=
  Forall (fun r => is_Some (row_time r)) data /\ StronglySorted row_newer data.

(** No row of the page is later than the [end] that was asked, if one was. *)
Definition in_window (params : Params) (data : list Row) : Prop :=
  forall e r t, p_end params = Some e -> r ∈ data -> row_time r = Some t -> t ≤ e.

(** Every row is later than the first millisecond of the epoch. *)
Definition past_epoch (data : list Row) : Prop :=
  forall r t, r ∈ data -> row_time r = Some t -> 1 < t.

(** Every row has a timestamp that is a number. *)
Definition decoded (data : list Row) : Prop :=
  Forall (fun r => is_Some (row_time r)) data.

Section Contract.

Context {World : Type}.
Variable http_get : World -> Params -> HttpReply Row * World.

(** [P] holds of every page that [_make_api_request] hands to the loop. *)
Definition every_page (P : Params -> list Row -> Prop) : Prop :=
  forall w params body w',
    _make_api_request http_get w params = (Ok body, w') -> P params (rows_of body).

Definition pages_newest_first : Prop := every_page (fun _ data => newest_first data).
Definition pages_in_window : Prop := every_page in_window.
Definition pages_past_epoch : Prop := every_page (fun _ data => past_epoch data).
Definition pages_decoded : Prop := every_page (fun _ data => decoded data).

End Contract.

(** [c1] is strictly before [c2]. *)
Definition candle_lt (c1 c2 : Candle) : Prop :=
  exists a b, timestamp c1 = Some a /\ timestamp c2 = Some b /\ a < b.

(** ** Scripted runs *)

(** The script that serves [pages], then [last_page], then [rest]. *)
Definition paged_script (pages : list (list Row)) (last_page : list Row)
    (rest : list (HttpReply Row)) : list (HttpReply Row) :=
  ((fun page => Json (page_body page)) <$> pages) ++ Json (page_body last_page) :: rest.

(** The cursor after a page, as the loop body computes it. *)
Definition next_cursor (current_end : Z) (page : list Row) : Z :=
  match oldest_timestamp page with
  | Ok oldest => oldest - 1
  | Raise _ => current_end
  end.

(** The cursors of the calls that fetch [pages] and then one more page. *)
Fixpoint cursors (current_end : Z) (pages : list (list Row)) : list Z :=
  match pages with
  | [] => [current_end]
  | page :: rest => current_end :: cursors (next_cursor current_end page) rest
  end.

(** Each page's oldest row is at or before the cursor it was asked with. *)
Fixpoint walks_back (current_end : Z) (pages : list (list Row)) : Prop :=
  match pages with
  | [] => True
  | page :: rest =>
      exists oldest, oldest_timestamp page = Ok oldest /\ oldest ≤ current_end /\
                     walks_back (oldest - 1) rest
  end.

(** A full page that neither fails to decode nor reaches the start. *)
Definition goes_on (start_timestamp : option Z) (page : list Row) : Prop :=
  length page = MAX_LIMIT /\
  exists oldest, oldest_timestamp page = Ok oldest /\
                 start_reached start_timestamp oldest = false.

(** A short page: empty, or ending in a row whose timestamp decodes. *)
Definition ends_run (page : list Row) : Prop :=
  (length page < MAX_LIMIT)%nat /\
  (page = [] \/ exists oldest, oldest_timestamp page = Ok oldest).

(** ** What a run fetched *)

(** The rows that one logged call brought back. *)
Definition page_rows (c : Call) : list Row :=
  match c.2 with
  | Ok body => rows_of body
  | Raise _ => []
  end.

(** The rows of all the pages of a log, in the order they were fetched. *)
Definition fetched (calls : list Call) : list Row :=
  concat (page_rows <$> calls).


(** The line of the frame for [plain_row t]. *)
Definition plain_candle (t : Z) : Candle :=
  {| timestamp := Some t; ohlcv := replicate 6 (Some "0") |}.

(** ** The server's tools ([mcp_server.py]) *)

(** The character of a decimal digit. *)
Definition digit_char (n : Z) : ascii := ascii_of_N (Z.to_N (48 + n mod 10)).

Definition two_digits (n : Z) : string :=
  String (digit_char (n / 10)) (String (digit_char n) EmptyString).

Definition four_digits (n : Z) : string :=
  String (digit_char (n / 1000)) (String (digit_char (n / 100)) (two_digits n)).

(** [strftime('%Y-%m-%d')] on a date whose year has four digits, as
    [analyze_price_movement] builds the two ends of its date range. *)
Definition strftime_Ymd (y m d : Z) : string :=
  four_digits y +:+ "-" +:+ two_digits m +:+ "-" +:+ two_digits d.

(** [str(e)]: the message of the exception; a [KeyError] shows its key
    in quotes.  The message [int] carries for a cell that is not a number
    leaves out the offending literal, so the text of that one exception is
    not the full text Python prints. *)
Definition str (e : exn) : string :=
  match e with
  | ValueError msg => msg
  | RequestException msg => msg
  | KeyError key => "'" +:+ key +:+ "'"
  | OtherError msg => msg
  end.

(** [int(x)] on a cell of the frame's timestamp column. *)
Definition int_of_timestamp (t : option Z) : result Z :=
  match t with
  | Some z => Ok z
  | None => Raise (ValueError "cannot convert float NaN to integer")
  end.

(** The dictionary [fetch_historical_ohlcv] returns: the successful one
    with the keys [data], [count], [symbol], [interval], [category],
    [first_timestamp] and [last_timestamp], the failed one with [error],
    [symbol], [interval] and [count].  The keys of the successful reply
    that are read off the [datetime] column or repeat the ones above
    ([date_range], [columns], [timeframe_coverage]) are not carried. *)
Inductive OhlcvReply :=
| OhlcvData (data : list Candle) (count : nat) (symbol interval category : string)
    (first_timestamp last_timestamp : Z)
| OhlcvError (error symbol interval : string) (count : nat).

(** The reply of the [except] branch. *)
Definition ohlcv_error (e : exn) (symbol interval : string) : OhlcvReply :=
  OhlcvError ("Error fetching OHLCV data: " +:+ str e) symbol interval 0.

(** The [try] block of [fetch_historical_ohlcv] from [if df.empty:] on. *)
Definition ohlcv_reply (df : list Candle) (symbol interval category : string)
    : result OhlcvReply :=
  match df with
  | [] => Ok (OhlcvError "No data available for the specified parameters"
                symbol interval 0)
  | first :: _ =>
      first_timestamp <-! int_of_timestamp (timestamp first);
      last_timestamp <-! int_of_timestamp (timestamp (default first (last df)));
      Ok (OhlcvData df (length df) symbol interval category
            first_timestamp last_timestamp)
  end.

(** [pattern in symbol], for a symbol that is text. *)
Fixpoint contains (pattern s : string) : bool :=
  String.prefix pattern s
  || match s with
     | String _ rest => contains pattern rest
     | EmptyString => false
     end.

Definition popular_patterns : list string := ["USDT"; "USD"; "BTC"; "ETH"].

(** [any(pattern in symbol for pattern in popular_patterns)]. *)
Definition is_popular (symbol : string) : bool :=
  existsb (fun pattern => contains pattern symbol) popular_patterns.

(** The loop over [symbols[:50]] that collects the popular pairs and
    breaks at the tenth. *)
Fixpoint popular_loop (symbols popular_symbols : list string) : list string :=
  match symbols with
  | [] => popular_symbols
  | symbol :: rest =>
      if is_popular symbol then
        let popular_symbols := popular_symbols ++ [symbol] in
        if bool_decide (10 ≤ length popular_symbols)%nat then popular_symbols
        else popular_loop rest popular_symbols
      else popular_loop rest popular_symbols
  end.

(** The dictionary [get_trading_symbols] returns; the constant key
    [categories_info] is not carried. *)
Inductive SymbolsReply :=
| SymbolsData (symbols : list string) (count : nat) (category : string)
    (sample_symbols popular_pairs : list string)
| SymbolsError (error category : string) (count : nat).

(** The [try] block of [get_trading_symbols] from [if not symbols:] on. *)
Definition symbols_reply (symbols : list string) (category : string) : SymbolsReply :=
  match symbols with
  | [] => SymbolsError ("No symbols found for category '" +:+ category
                        +:+ "' or invalid category") category 0
  | _ :: _ => SymbolsData symbols (length symbols) category (take 10 symbols)
                (popular_loop (take 50 symbols) [])
  end.

Section Tools.

Context {World : Type}.
Variable http_get : World -> Params -> HttpReply Row * World.
Variable http_get_instruments : World -> string -> HttpReply Instrument * World.

(** [fetch_historical_ohlcv]: whatever [get_ohlcv] or the code after it
    raises ends in the [except] branch. *)
Definition fetch_historical_ohlcv (fuel : nat) (w : World) (now_ms : Z)
    (symbol interval : string) (start_date end_date : option string)
    (category : string) : Outcome OhlcvReply * World * list Call :=
  let '(o, w', calls) :=
    get_ohlcv http_get fuel w now_ms symbol interval start_date end_date category in
  (match o with
   | Returned df =>
       match ohlcv_reply df symbol interval category with
       | Ok reply => Returned reply
       | Raise e => Returned (ohlcv_error e symbol interval)
       end
   | Raised e => Returned (ohlcv_error e symbol interval)
   | OutOfFuel => OutOfFuel
   end, w', calls).

Definition get_trading_symbols (w : World) (category : string)
    : SymbolsReply * World :=
  match get_available_symbols http_get_instruments w category with
  | (Ok symbols, w') => (symbols_reply symbols category, w')
  | (Raise e, w') =>
      (SymbolsError ("Error fetching symbols: " +:+ str e) category 0, w')
  end.

End Tools.

(** One line of the [overview_data] of [get_market_overview].  The prices
    and the volume of a quoted symbol are floating-point numbers read off
    the last two candles; they are carried as an abstract [Quote]. *)
Inductive OverviewEntry (Quote : Type) :=
| Quoted (symbol : string) (quote : Quote)
| Unquoted (symbol error : string).
Arguments Quoted {Quote} symbol quote.
Arguments Unquoted {Quote} symbol error.

Definition entry_symbol {Quote} (entry : OverviewEntry Quote) : string :=
  match entry with
  | Quoted symbol _ => symbol
  | Unquoted symbol _ => symbol
  end.

Definition is_quoted {Quote} (entry : OverviewEntry Quote) : bool :=
  match entry with
  | Quoted _ _ => true
  | Unquoted _ _ => false
  end.

(** The dictionary [get_market_overview] returns.  The keys computed in
    floating point from the quotes ([market_summary], [top_performers],
    [top_decliners]) and the clock reading [timestamp] are not carried. *)
Record MarketOverview (Quote : Type) := {
  ov_success : bool;
  ov_overview : list (OverviewEntry Quote);
  ov_total_symbols : nat;
  ov_successful_fetches : nat;
  ov_interval : string;
  ov_category : string
}.
Arguments ov_success {Quote} _.
Arguments ov_overview {Quote} _.
Arguments ov_total_symbols {Quote} _.
Arguments ov_successful_fetches {Quote} _.
Arguments ov_interval {Quote} _.
Arguments ov_category {Quote} _.

Definition default_symbols : list string :=
  ["BTCUSDT"; "ETHUSDT"; "BNBUSDT"; "SOLUSDT"; "ADAUSDT"; "XRPUSDT"; "DOGEUSDT";
   "AVAXUSDT"].

Section Overview.

Context {World Quote : Type}.
Variable http_get : World -> Params -> HttpReply Row * World.

(** The quote computed from a frame of at least two candles. *)
Variable quote_of : list Candle -> Quote.

(** The clock as the [i]-th call of [get_ohlcv] reads it. *)
Variable now : nat -> Z.

(** The [for symbol in symbols] loop; each symbol is fetched without
    dates, and what its fetch raises ends in the inner [except]. *)
Fixpoint overview_loop (fuel : nat) (w : World) (i : nat) (symbols : list string)
    (category interval : string)
    (overview_data : list (OverviewEntry Quote)) (successful_fetches : nat)
    (calls : list Call)
    : Outcome (list (OverviewEntry Quote) * nat) * World * list Call :=
  match symbols with
  | [] => (Returned (overview_data, successful_fetches), w, calls)
  | symbol :: rest =>
      let '(o, w', new) :=
        get_ohlcv http_get fuel w (now i) symbol interval None None category in
      match o with
      | Returned df =>
          if negb (bool_decide (df = [])) && bool_decide (2 ≤ length df)%nat then
            overview_loop fuel w' (S i) rest category interval
              (overview_data ++ [Quoted symbol (quote_of df)])
              (S successful_fetches) (calls ++ new)
          else
            overview_loop fuel w' (S i) rest category interval
              (overview_data ++ [Unquoted symbol "Insufficient data"])
              successful_fetches (calls ++ new)
      | Raised e =>
          overview_loop fuel w' (S i) rest category interval
            (overview_data ++ [Unquoted symbol (str e)])
            successful_fetches (calls ++ new)
      | OutOfFuel => (OutOfFuel, w', calls ++ new)
      end
  end.

Definition get_market_overview (fuel : nat) (w : World)
    (symbols : option (list string)) (category interval : string)
    : Outcome (MarketOverview Quote) * World * list Call :=
  let symbols := default default_symbols symbols in
  let '(o, w', calls) := overview_loop fuel w 0 symbols category interval [] 0 [] in
  (match o with
   | Returned (overview_data, successful_fetches) =>
       Returned {| ov_success := bool_decide (0 < successful_fetches)%nat;
                   ov_overview := overview_data;
                   ov_total_symbols := length symbols;
                   ov_successful_fetches := successful_fetches;
                   ov_interval := interval;
                   ov_category := category |}
   | Raised e => Raised e
   | OutOfFuel => OutOfFuel
   end, w', calls).

End Overview.

(** * Properties *)

(** ** Dates *)

Example parse_2024 : _parse_date_to_timestamp "2024-01-01" = Ok 1704067200000.
Proof. reflexivity. Qed.

Example parse_2024_time :
  _parse_date_to_timestamp "2024-02-29 12:30:15" = Ok 1709209815000.
Proof. reflexivity. Qed.

Lemma parse_raises_ValueError (d : string) (e : exn) :
  _parse_date_to_timestamp d = Raise e -> exists msg, e = ValueError msg.
Proof.
  unfold _parse_date_to_timestamp.
  destruct (if Strptime.has_blank d then _ else _) as [f|].
  - destruct (Strptime.valid f); intros H; inversion H; eauto.
  - intros H; inversion H; eauto.
Qed.

Lemma matches_neither_format_raises (d : string) :
  Strptime.match_date d = None -> Strptime.match_datetime d = None ->
  exists msg, _parse_date_to_timestamp d = Raise (ValueError msg).
Proof.
  intros Hdate Htime. unfold _parse_date_to_timestamp.
  destruct (Strptime.has_blank d); rewrite ?Hdate, ?Htime; eauto.
Qed.

Example slashes_match_neither_format :
  Strptime.match_date "2024/01/01" = None /\
  Strptime.match_datetime "2024/01/01" = None.
Proof. split; reflexivity. Qed.

Lemma truthy_str_nonempty (d : string) : d ≠ "" -> truthy_str (Some d) = true.
Proof. destruct d; [congruence | reflexivity]. Qed.

Lemma resolve_start_raises (d : string) (e : exn) :
  d ≠ "" -> _parse_date_to_timestamp d = Raise e ->
  resolve_start (Some d) = Raise e.
Proof.
  intros Hd Hp. unfold resolve_start.
  rewrite (truthy_str_nonempty d Hd), Hp. reflexivity.
Qed.

Lemma resolve_end_raises (d : string) (e : exn) (now_ms : Z) :
  d ≠ "" -> _parse_date_to_timestamp d = Raise e ->
  resolve_end (Some d) now_ms = Raise e.
Proof.
  intros Hd Hp. unfold resolve_end.
  rewrite (truthy_str_nonempty d Hd), Hp. reflexivity.
Qed.

Lemma resolve_start_ValueError (start_date : option string) (e : exn) :
  resolve_start start_date = Raise e -> exists msg, e = ValueError msg.
Proof.
  unfold resolve_start. destruct start_date as [d|]; [|discriminate].
  destruct (truthy_str (Some d)); [|discriminate].
  destruct (_parse_date_to_timestamp d) eqn:Hp; simpl; [discriminate|].
  intros H; inversion H; subst. eapply parse_raises_ValueError; eauto.
Qed.

(** ** One iteration of the loop *)

Section DriverFacts.

Context {World : Type}.
Variable http_get : World -> Params -> HttpReply Row * World.
Variables category symbol interval : string.
Variable start_timestamp : option Z.

Abbreviation loop := (fetch_loop http_get category symbol interval start_timestamp).
Abbreviation params_at := (build_params category symbol interval start_timestamp).

(** The loop body, read off the definition. *)
Lemma fetch_loop_unfold fuel w all_data current_end calls :
  loop (S fuel) w all_data current_end calls =
  let '(response, w') := _make_api_request http_get w (params_at current_end) in
  let calls' := calls ++ [(params_at current_end, response)] in
  match response with
  | Raise e => (Raised e, w', calls')
  | Ok body =>
      match rows_of body with
      | [] => (Returned all_data, w', calls')
      | (_ :: _) as data =>
          match after_page start_timestamp data with
          | Raise e => (Raised e, w', calls')
          | Ok Break => (Returned (all_data ++ data), w', calls')
          | Ok (Continue current_end') =>
              loop fuel w' (all_data ++ data) current_end' calls'
          end
      end
  end.
Proof. reflexivity. Qed.

(** The log only grows. *)
Lemma fetch_loop_log fuel : forall w all_data current_end calls o w' calls',
  loop fuel w all_data current_end calls = (o, w', calls') ->
  exists new, calls' = calls ++ new.
Proof.
  induction fuel as [|fuel IH]; intros w all_data current_end calls o w' calls'.
  - simpl. intros [= <- <- <-]. exists []. by rewrite app_nil_r.
  - rewrite fetch_loop_unfold.
    destruct (_make_api_request _ _ _) as [[body|e] w1]; cbv beta iota zeta.
    + destruct (rows_of body) as [|r data].
      * intros [= <- <- <-]. eauto.
      * destruct (after_page _ _) as [[|c]|e].
        -- intros [= <- <- <-]. eauto.
        -- intros H. apply IH in H as [new ->].
           exists ((params_at current_end, Ok body) :: new).
           by rewrite <- app_assoc.
        -- intros [= <- <- <-]. eauto.
    + intros [= <- <- <-]. eauto.
Qed.

(** Fuel only decides whether the run is over: once it is, more fuel
    changes nothing. *)
Lemma fetch_loop_more_fuel fuel : forall extra w all_data current_end calls o w' calls',
  loop fuel w all_data current_end calls = (o, w', calls') ->
  o ≠ OutOfFuel ->
  loop (fuel + extra) w all_data current_end calls = (o, w', calls').
Proof.
  induction fuel as [|fuel IH]; intros extra w all_data current_end calls o w' calls'.
  - simpl. by intros [= <- <- <-].
  - change (S fuel + extra)%nat with (S (fuel + extra)).
    rewrite !fetch_loop_unfold.
    destruct (_make_api_request _ _ _) as [[body|e] w1]; cbv beta iota zeta; [|done].
    destruct (rows_of body) as [|r data]; [done|].
    destruct (after_page _ _) as [[|c]|e]; [done| |done].
    apply IH.
Qed.

End DriverFacts.

(** ** The log of calls *)

Section Trace.

Context {World : Type}.
Variable http_get : World -> Params -> HttpReply Row * World.
Variables category symbol interval : string.
Variable start_timestamp : option Z.

Abbreviation loop' := (fetch_loop http_get category symbol interval start_timestamp).
Abbreviation params_at' := (build_params category symbol interval start_timestamp).

(** Every logged call was issued from some state of the loop, and the
    run from that state is the rest of the run. *)
Lemma fetch_loop_at fuel : forall w all_data current_end calls o w' calls' i c,
  loop' fuel w all_data current_end calls = (o, w', calls') ->
  (length calls ≤ i)%nat ->
  calls' !! i = Some c ->
  exists fuel1 w1 all_data1 current_end1 w2,
    c.1 = params_at' current_end1 /\
    _make_api_request http_get w1 (params_at' current_end1) = (c.2, w2) /\
    loop' (S fuel1) w1 all_data1 current_end1 (take i calls') = (o, w', calls').
Proof.
  induction fuel as [|fuel IH]; intros w all_data current_end calls o w' calls' i c.
  - simpl. intros [= <- <- <-] Hi Hc.
    apply lookup_lt_Some in Hc. exfalso. lia.
  - intros Hrun Hi Hc.
    destruct (decide (i = length calls)) as [->|Hne].
    + exists fuel, w, all_data, current_end.
      assert (take (length calls) calls' = calls) as ->.
      { destruct (fetch_loop_log _ _ _ _ _ _ _ _ _ _ _ _ _ Hrun) as [new ->].
        apply take_app_length. }
      rewrite Hrun.
      rewrite fetch_loop_unfold in Hrun.
      destruct (_make_api_request _ _ _) as [resp w1] eqn:Hreq.
      exists w1. cbv beta iota zeta in Hrun.
      assert (calls' !! length calls = Some (params_at' current_end, resp)) as Hentry.
      { destruct resp as [body|e].
        - destruct (rows_of body) as [|r data].
          + injection Hrun as <- <- <-. by rewrite lookup_app_r, Nat.sub_diag.
          + destruct (after_page _ _) as [[|c']|e].
            * injection Hrun as <- <- <-. by rewrite lookup_app_r, Nat.sub_diag.
            * apply fetch_loop_log in Hrun as [new ->].
              rewrite <- app_assoc. by rewrite lookup_app_r, Nat.sub_diag.
            * injection Hrun as <- <- <-. by rewrite lookup_app_r, Nat.sub_diag.
        - injection Hrun as <- <- <-. by rewrite lookup_app_r, Nat.sub_diag. }
      rewrite Hentry in Hc. injection Hc as <-. simpl. auto.
    + rewrite fetch_loop_unfold in Hrun.
      destruct (_make_api_request _ _ _) as [resp w1] eqn:Hreq.
      cbv beta iota zeta in Hrun.
      assert (forall x : Call, (calls ++ [x]) !! i = None) as Hout.
      { intros x. apply lookup_ge_None. rewrite length_app. simpl. lia. }
      destruct resp as [body|e].
      * destruct (rows_of body) as [|r data].
        -- injection Hrun as <- <- <-. by rewrite Hout in Hc.
        -- destruct (after_page _ _) as [[|c']|e].
           ++ injection Hrun as <- <- <-. by rewrite Hout in Hc.
           ++ eapply IH; eauto. rewrite length_app. simpl. lia.
           ++ injection Hrun as <- <- <-. by rewrite Hout in Hc.
      * injection Hrun as <- <- <-. by rewrite Hout in Hc.
Qed.

(** A call that raised is the last one, and its exception is the outcome. *)
Lemma fetch_loop_raise fuel w all_data current_end o w' calls' i p e :
  loop' fuel w all_data current_end [] = (o, w', calls') ->
  calls' !! i = Some (p, Raise e) ->
  o = Raised e /\ length calls' = S i.
Proof.
  intros Hrun Hc.
  destruct (fetch_loop_at _ _ _ _ _ _ _ _ _ _ Hrun (Nat.le_0_l i) Hc)
    as (fuel1 & w1 & acc1 & cur1 & w2 & _ & Hreq & Hrest).
  rewrite fetch_loop_unfold, Hreq in Hrest. simpl in Hrest.
  injection Hrest as <- <- Hcalls.
  split; [done|].
  rewrite <- Hcalls at 1. rewrite length_app, length_take. simpl.
  apply lookup_lt_Some in Hc. lia.
Qed.

(** A non-empty page after which the loop breaks is the last one, and
    all its rows are in the accumulator that the loop returns. *)
Lemma fetch_loop_break fuel w all_data current_end o w' calls' i p body :
  loop' fuel w all_data current_end [] = (o, w', calls') ->
  calls' !! i = Some (p, Ok body) ->
  rows_of body ≠ [] ->
  after_page start_timestamp (rows_of body) = Ok Break ->
  length calls' = S i /\
  exists all, o = Returned all /\ forall r, r ∈ rows_of body -> r ∈ all.
Proof.
  intros Hrun Hc Hne Hbreak.
  destruct (fetch_loop_at _ _ _ _ _ _ _ _ _ _ Hrun (Nat.le_0_l i) Hc)
    as (fuel1 & w1 & acc1 & cur1 & w2 & _ & Hreq & Hrest).
  rewrite fetch_loop_unfold, Hreq in Hrest. simpl in Hrest.
  destruct (rows_of body) as [|r data] eqn:Hrows; [done|].
  rewrite Hbreak in Hrest.
  injection Hrest as <- <- Hcalls.
  split.
  - rewrite <- Hcalls at 1. rewrite length_app, length_take. simpl.
    apply lookup_lt_Some in Hc. lia.
  - eexists. split; [done|]. intros x Hx. apply elem_of_app. by right.
Qed.

(** The accumulator only grows. *)
Lemma fetch_loop_accumulates fuel : forall w all_data current_end calls all w' calls',
  loop' fuel w all_data current_end calls = (Returned all, w', calls') ->
  forall r, r ∈ all_data -> r ∈ all.
Proof.
  induction fuel as [|fuel IH]; intros w all_data current_end calls all w' calls';
    [discriminate|].
  rewrite fetch_loop_unfold.
  destruct (_make_api_request _ _ _) as [[body|e] w1]; cbv beta iota zeta; [|discriminate].
  destruct (rows_of body) as [|r0 data]; [by intros [= <- <- <-]|].
  destruct (after_page _ _) as [[|c]|e]; [| |discriminate].
  - intros [= <- <- <-] r Hr. apply elem_of_app. by left.
  - intros Hrun r Hr. eapply IH; [exact Hrun|]. apply elem_of_app. by left.
Qed.

(** No row is lost: every row of every page fetched is in the
    accumulator that the loop returns. *)
Lemma fetch_loop_keeps_pages fuel w all_data current_end all w' calls' i p body :
  loop' fuel w all_data current_end [] = (Returned all, w', calls') ->
  calls' !! i = Some (p, Ok body) ->
  forall r, r ∈ rows_of body -> r ∈ all.
Proof.
  intros Hrun Hc r Hr.
  destruct (fetch_loop_at _ _ _ _ _ _ _ _ _ _ Hrun (Nat.le_0_l i) Hc)
    as (fuel1 & w1 & acc1 & cur1 & w2 & _ & Hreq & Hrest).
  rewrite fetch_loop_unfold, Hreq in Hrest. simpl in Hrest.
  destruct (rows_of body) as [|r0 data] eqn:Hrows; [by apply elem_of_nil in Hr|].
  destruct (after_page _ _) as [[|c]|e]; [| |discriminate].
  - injection Hrest as <- _ _. apply elem_of_app. by right.
  - eapply fetch_loop_accumulates; [exact Hrest|]. apply elem_of_app. by right.
Qed.

End Trace.

(** ** From [get_ohlcv] to its loop *)

Section TopLevel.

Context {World : Type}.
Variable http_get : World -> Params -> HttpReply Row * World.

(** A run of [get_ohlcv] either stops in validation, having called
    nothing, or is a run of the loop from the resolved window. *)
Lemma get_ohlcv_cases fuel w now_ms symbol interval start_date end_date category
    o w' calls :
  get_ohlcv http_get fuel w now_ms symbol interval start_date end_date category
    = (o, w', calls) ->
  (exists msg, o = Raised (ValueError msg) /\ w' = w /\ calls = []) \/
  (exists start_timestamp end_timestamp o',
      symbol ≠ "" /\ interval ≠ "" /\ category ∈ valid_categories /\
      resolve_start start_date = Ok start_timestamp /\
      resolve_end end_date now_ms = Ok end_timestamp /\
      fetch_loop http_get category symbol interval start_timestamp
        fuel w [] end_timestamp [] = (o', w', calls) /\
      o = finish category start_timestamp o').
Proof.
  unfold get_ohlcv.
  case_bool_decide as Hs; [intros [= <- <- <-]; left; eauto|].
  case_bool_decide as Hi; [intros [= <- <- <-]; left; eauto|].
  case_bool_decide as Hc; [intros [= <- <- <-]; left; eauto|].
  destruct (resolve_start start_date) as [st|e] eqn:Hst.
  2:{ intros [= <- <- <-]. left.
      destruct (resolve_start_ValueError _ _ Hst) as [msg ->]. eauto. }
  destruct (resolve_end end_date now_ms) as [en|e] eqn:Hen.
  2:{ intros [= <- <- <-]. left.
      unfold resolve_end in Hen. destruct end_date as [d|]; [|discriminate].
      destruct (truthy_str (Some d)); [|discriminate].
      destruct (parse_raises_ValueError _ _ Hen) as [msg ->]. eauto. }
  destruct (fetch_loop _ _ _ _ _ _ _ _ _ _) as [[o' w1] calls1] eqn:Hloop.
  intros [= <- <- <-]. right. exists st, en, o'. auto 10.
Qed.

End TopLevel.

(** ** The transport layer *)

Lemma make_api_request_transport {World : Type}
    (http_get : World -> Params -> HttpReply Row * World) w params e w1 :
  http_get w params = (Failed e, w1) ->
  _make_api_request http_get w params = (Raise e, w1).
Proof. unfold _make_api_request. by intros ->. Qed.

Lemma make_api_request_api_error {World : Type}
    (http_get : World -> Params -> HttpReply Row * World) w params data w1 :
  http_get w params = (Json data, w1) ->
  retCode data ≠ Some 0 ->
  exists msg, _make_api_request http_get w params = (Raise (RequestException msg), w1).
Proof.
  unfold _make_api_request, check_body. intros -> Hcode.
  rewrite bool_decide_eq_false_2 by done. eauto.
Qed.

(** ** Error propagation *)

(** C4. Whenever a page call raises, [get_ohlcv] raises that same
    exception: the outcome is not a series, and the call that failed is
    the last call issued, so it is not tried again. *)
Theorem page_error_propagates {World : Type}
    (http_get : World -> Params -> HttpReply Row * World)
    fuel w now_ms symbol interval start_date end_date category
    o w' calls (i : nat) p e :
  get_ohlcv http_get fuel w now_ms symbol interval start_date end_date category
    = (o, w', calls) ->
  calls !! i = Some (p, Raise e) ->
  o = Raised e /\ length calls = S i.
Proof.
  intros Hrun Hcall.
  destruct (get_ohlcv_cases _ _ _ _ _ _ _ _ _ _ _ _ Hrun)
    as [(msg & _ & _ & ->)|(st & en & o' & _ & _ & _ & _ & _ & Hloop & ->)].
  - by rewrite lookup_nil in Hcall.
  - edestruct @fetch_loop_raise as [-> Hlen]; [exact Hloop|exact Hcall|].
    by split.
Qed.

Lemma page_error_propagates_witness :
  let run := get_ohlcv script_get 5 [Failed (RequestException "timed out")]
               1704067260000 "BTCUSDT" "1" None None "spot" in
  run.1.1 = Raised (RequestException "timed out") /\ length run.2 = 1%nat.
Proof.
  intros run.
  apply (page_error_propagates script_get 5 [Failed (RequestException "timed out")]
           1704067260000 "BTCUSDT" "1" None None "spot"
           run.1.1 run.1.2 run.2 0%nat
           (build_params "spot" "BTCUSDT" "1" None 1704067260000)
           (RequestException "timed out")); reflexivity.
Defined.

(** ** Validation *)

(** C7. An empty symbol, an empty interval, a category outside the
    supported ones, or a non-empty date string that the parser rejects
    makes [get_ohlcv] raise a [ValueError] with the provider untouched
    and no call issued, whatever the fuel. *)
Theorem invalid_input_raises_before_any_call {World : Type}
    (http_get : World -> Params -> HttpReply Row * World)
    fuel w now_ms symbol interval start_date end_date category :
  symbol = "" \/ interval = "" \/ category ∉ valid_categories \/
  (exists d e, start_date = Some d /\ d ≠ "" /\ _parse_date_to_timestamp d = Raise e) \/
  (exists d e, end_date = Some d /\ d ≠ "" /\ _parse_date_to_timestamp d = Raise e) ->
  exists msg,
    get_ohlcv http_get fuel w now_ms symbol interval start_date end_date category
    = (Raised (ValueError msg), w, []).
Proof.
  intros Hbad. unfold get_ohlcv.
  case_bool_decide as Hs; [eauto|].
  case_bool_decide as Hi; [eauto|].
  case_bool_decide as Hc; [eauto|].
  destruct Hbad as [?|[?|[?|[Hstart|Hend]]]]; [done..| |].
  - destruct Hstart as (d & e & -> & Hd & Hp).
    rewrite (resolve_start_raises d e Hd Hp).
    destruct (parse_raises_ValueError d e Hp) as [msg ->]. eauto.
  - destruct Hend as (d & e & -> & Hd & Hp).
    destruct (parse_raises_ValueError d e Hp) as [msg ->].
    destruct (resolve_start start_date) as [st|e'] eqn:Hst.
    + rewrite (resolve_end_raises d _ now_ms Hd Hp). eauto.
    + destruct (resolve_start_ValueError _ _ Hst) as [msg' ->]. eauto.
Qed.

Lemma invalid_input_raises_before_any_call_witness :
  _parse_date_to_timestamp "2024/01/01"
    = Raise (ValueError
        "Invalid date format: 2024/01/01. Use 'YYYY-MM-DD' or 'YYYY-MM-DD HH:MM:SS'")
  /\ exists msg,
       get_ohlcv (history_get [1704067200000]) 5 tt 1704067260000
         "BTCUSDT" "1" (Some "2024/01/01") None "spot"
       = (Raised (ValueError msg), tt, []).
Proof.
  split; [reflexivity|].
  apply (invalid_input_raises_before_any_call (history_get [1704067200000]) 5 tt
           1704067260000 "BTCUSDT" "1" (Some "2024/01/01") None "spot").
  do 3 right. left. eexists _, _.
  split; [reflexivity|]. split; [discriminate|reflexivity].
Defined.

(** ** The empty first page *)

(** C8. If the first page call succeeds with zero rows, [get_ohlcv]
    returns the empty series after that one call and raises nothing. *)
Theorem empty_first_page_returns_empty {World : Type}
    (http_get : World -> Params -> HttpReply Row * World)
    fuel w now_ms symbol interval start_date end_date category
    o w' calls p body :
  get_ohlcv http_get fuel w now_ms symbol interval start_date end_date category
    = (o, w', calls) ->
  calls !! 0%nat = Some (p, Ok body) ->
  rows_of body = [] ->
  o = Returned [] /\ length calls = 1%nat.
Proof.
  intros Hrun Hcall Hrows.
  destruct (get_ohlcv_cases _ _ _ _ _ _ _ _ _ _ _ _ Hrun)
    as [(msg & _ & _ & ->)|(st & en & o' & _ & _ & _ & _ & _ & Hloop & ->)].
  - by rewrite lookup_nil in Hcall.
  - destruct fuel as [|fuel].
    + simpl in Hloop. injection Hloop as <- <- <-. by rewrite lookup_nil in Hcall.
    + rewrite fetch_loop_unfold in Hloop.
      destruct (_make_api_request _ _ _) as [resp w1].
      cbv beta iota zeta in Hloop. rewrite app_nil_l in Hloop.
      assert (resp = Ok body) as ->.
      { destruct resp as [b|e].
        - destruct (rows_of b) as [|r data].
          + injection Hloop as <- <- <-. simpl in Hcall. congruence.
          + destruct (after_page _ _) as [[|c]|e].
            * injection Hloop as <- <- <-. simpl in Hcall. congruence.
            * apply fetch_loop_log in Hloop as [new ->]. simpl in Hcall. congruence.
            * injection Hloop as <- <- <-. simpl in Hcall. congruence.
        - injection Hloop as <- <- <-. simpl in Hcall. congruence. }
      rewrite Hrows in Hloop. by injection Hloop as <- <- <-.
Qed.

Lemma empty_first_page_returns_empty_witness :
  let run := get_ohlcv (history_get []) 5 tt 1704067260000
               "BTCUSDT" "1" (Some "2024-01-01") None "spot" in
  run.1.1 = Returned [] /\ length run.2 = 1%nat.
Proof.
  intros run.
  apply (empty_first_page_returns_empty (history_get []) 5 tt 1704067260000
           "BTCUSDT" "1" (Some "2024-01-01") None "spot"
           run.1.1 run.1.2 run.2
           (build_params "spot" "BTCUSDT" "1" (Some 1704067200000) 1704067260000)
           (page_body [])); reflexivity.
Defined.

(** ** The termination rules *)

Lemma start_reached_true (start_timestamp : option Z) (oldest : Z) :
  start_reached start_timestamp oldest = true <->
  exists s, start_timestamp = Some s /\ s ≠ 0 /\ oldest ≤ s.
Proof.
  unfold start_reached, truthy_int. destruct start_timestamp as [s|].
  - rewrite andb_true_iff, negb_true_iff, Z.eqb_neq, bool_decide_eq_true.
    split; [intros []; eauto | intros (? & [= <-] & ? & ?); auto].
  - split; [discriminate | intros (? & ? & _); discriminate].
Qed.

Lemma after_page_spec (start_timestamp : option Z) (data : list Row) (oldest : Z) :
  oldest_timestamp data = Ok oldest ->
  after_page start_timestamp data =
    if start_reached start_timestamp oldest then Ok Break
    else if bool_decide (length data < MAX_LIMIT)%nat then Ok Break
    else Ok (Continue (oldest - 1)).
Proof. unfold after_page. by intros ->. Qed.

(** C3 (amended). After a non-empty page whose oldest timestamp is
    [oldest], the loop first stops if a resolved start other than zero
    exists and [oldest] is at or before it; otherwise it stops if the page
    has fewer than [MAX_LIMIT] rows; otherwise it goes on from the cursor
    [oldest - 1].  The page is appended to the accumulator in all three
    cases. *)
Theorem termination_rules_in_order {World : Type}
    (http_get : World -> Params -> HttpReply Row * World)
    category symbol interval start_timestamp
    fuel w all_data current_end calls body w1 oldest :
  _make_api_request http_get w
    (build_params category symbol interval start_timestamp current_end) = (Ok body, w1) ->
  rows_of body ≠ [] ->
  oldest_timestamp (rows_of body) = Ok oldest ->
  ((exists s, start_timestamp = Some s /\ s ≠ 0 /\ oldest ≤ s) ->
   fetch_loop http_get category symbol interval start_timestamp
     (S fuel) w all_data current_end calls
   = (Returned (all_data ++ rows_of body), w1,
      calls ++ [(build_params category symbol interval start_timestamp current_end,
                 Ok body)]))
  /\
  (~ (exists s, start_timestamp = Some s /\ s ≠ 0 /\ oldest ≤ s) ->
   (length (rows_of body) < MAX_LIMIT)%nat ->
   fetch_loop http_get category symbol interval start_timestamp
     (S fuel) w all_data current_end calls
   = (Returned (all_data ++ rows_of body), w1,
      calls ++ [(build_params category symbol interval start_timestamp current_end,
                 Ok body)]))
  /\
  (~ (exists s, start_timestamp = Some s /\ s ≠ 0 /\ oldest ≤ s) ->
   (MAX_LIMIT ≤ length (rows_of body))%nat ->
   fetch_loop http_get category symbol interval start_timestamp
     (S fuel) w all_data current_end calls
   = fetch_loop http_get category symbol interval start_timestamp
       fuel w1 (all_data ++ rows_of body) (oldest - 1)
       (calls ++ [(build_params category symbol interval start_timestamp current_end,
                   Ok body)])).
Proof.
  intros Hreq Hne Hold.
  rewrite fetch_loop_unfold, Hreq. cbv beta iota zeta.
  destruct (rows_of body) as [|r data] eqn:Hrows; [done|].
  rewrite (after_page_spec _ _ _ Hold).
  rewrite <- start_reached_true.
  destruct (start_reached start_timestamp oldest).
  - split; [done|]. split; intros []; done.
  - split; [done|]. split; intros _ Hlen.
    + by rewrite bool_decide_eq_true_2.
    + rewrite bool_decide_eq_false_2; [done|lia].
Qed.

Lemma termination_rules_in_order_witness :
  fetch_loop script_get "spot" "BTCUSDT" "1" (Some 1704067200000) 1
    [Json (page_body [plain_row 1704067260000; plain_row 1704067200000])]
    [] 1704067300000 []
  = (Returned [plain_row 1704067260000; plain_row 1704067200000], [],
     [(build_params "spot" "BTCUSDT" "1" (Some 1704067200000) 1704067300000,
       Ok (page_body [plain_row 1704067260000; plain_row 1704067200000]))]).
Proof.
  apply (proj1 (termination_rules_in_order script_get
           "spot" "BTCUSDT" "1" (Some 1704067200000) 0
           [Json (page_body [plain_row 1704067260000; plain_row 1704067200000])]
           [] 1704067300000 []
           (page_body [plain_row 1704067260000; plain_row 1704067200000])
           [] 1704067200000 eq_refl ltac:(discriminate) eq_refl)).
  exists 1704067200000. split; [reflexivity|]. split; [discriminate|reflexivity].
Defined.

(** C3 as stated fails when the start resolves to zero: for the start
    date 1970-01-01 and a full page whose oldest timestamp is 0, a
    resolved start exists and the oldest timestamp is at or before it, yet
    the loop does not stop: it goes on from the cursor -1 and issues a
    second call.  And after a page whose oldest timestamp does not decode
    no rule applies: the loop raises. *)
Lemma termination_rules_counterexample :
  resolve_start (Some "1970-01-01") = Ok (Some 0) /\
  oldest_timestamp (descending_from 1000 0 60000) = Ok 0 /\
  after_page (Some 0) (descending_from 1000 0 60000) = Ok (Continue (-1)) /\
  p_end <$> (fetch_loop script_get "spot" "BTCUSDT" "1" (Some 0) 5
               [Json (page_body (descending_from 1000 0 60000))]
               [] 86400000 []).2.*1
  = [Some 86400000; Some (-1)] /\
  after_page None [ {| row_ts := CBad; row_ohlcv := [] |} ]
  = Raise (ValueError "invalid literal for int() with base 10").
Proof. repeat split; vm_compute; reflexivity. Qed.

(** ** The inclusive lower bound *)

(** What the loop returns is what it had plus the pages it logged. *)
Lemma fetch_loop_fetched {World : Type}
    (http_get : World -> Params -> HttpReply Row * World)
    category symbol interval start_timestamp fuel :
  forall w all_data current_end calls all w' calls',
  fetch_loop http_get category symbol interval start_timestamp
    fuel w all_data current_end calls = (Returned all, w', calls') ->
  exists new, calls' = calls ++ new /\ all = all_data ++ fetched new.
Proof.
  induction fuel as [|fuel IH]; intros w all_data current_end calls all w' calls';
    [discriminate|].
  rewrite fetch_loop_unfold.
  destruct (_make_api_request _ _ _) as [[body|e] w1]; cbv beta iota zeta; [|discriminate].
  destruct (rows_of body) as [|r data] eqn:Hrows.
  { intros [= <- <- <-]. eexists [_]. split; [done|].
    unfold fetched, page_rows. simpl. by rewrite Hrows, !app_nil_r. }
  destruct (after_page _ _) as [[|c]|e]; [| |discriminate].
  - intros [= <- <- <-]. eexists [_]. split; [done|].
    unfold fetched, page_rows. simpl. by rewrite Hrows, app_nil_r.
  - intros Hrun. apply IH in Hrun as (new & -> & ->).
    eexists (_ :: new). split; [by rewrite <- app_assoc|].
    unfold fetched at 2, page_rows at 1. simpl. rewrite Hrows.
    by rewrite <- !app_assoc.
Qed.


Lemma finish_Returned category start_timestamp (o : Outcome (list Row)) (df : list Candle) :
  finish category start_timestamp o = Returned df ->
  exists all_data, o = Returned all_data /\
                   assemble all_data category start_timestamp = Ok df.
Proof.
  destruct o as [all_data|e|]; simpl; [|discriminate..].
  destruct (assemble all_data category start_timestamp) as [df'|e] eqn:Hdf;
    intros [= <-]. eauto.
Qed.

(** A frame that was built holds the candle of every row. *)
Lemma convert_to_dataframe_Ok (data : list Row) category (df : list Candle) :
  _convert_to_dataframe data category = Ok df -> df = row_to_candle <$> data.
Proof.
  unfold _convert_to_dataframe. destruct data as [|r data]; [by intros [= <-]|].
  case_bool_decide; [|discriminate].
  cbv zeta. destruct (to_datetime _); simpl; [|discriminate]. by intros [= <-].
Qed.

Lemma filter_and_sort_nil start_timestamp : filter_and_sort [] start_timestamp = [].
Proof.
  unfold filter_and_sort, truthy_opt.
  destruct start_timestamp as [s|]; [destruct (truthy_int s)|]; reflexivity.
Qed.

Lemma assemble_Ok (all_data : list Row) category start_timestamp (df : list Candle) :
  assemble all_data category start_timestamp = Ok df ->
  df = filter_and_sort (row_to_candle <$> all_data) start_timestamp.
Proof.
  unfold assemble. destruct all_data as [|r rest].
  { intros [= <-]. by rewrite filter_and_sort_nil. }
  destruct (_convert_to_dataframe (r :: rest) category) as [df'|e] eqn:Hdf;
    simpl; [|discriminate].
  intros [= <-]. by rewrite (convert_to_dataframe_Ok _ _ _ Hdf).
Qed.

(** When the frame is built: the widest row has seven cells and every
    timestamp can be shown as a date. *)
Lemma assemble_builds (all_data : list Row) category start_timestamp :
  widest all_data = 7%nat ->
  Forall (fun r => from_option representable true (row_time r) = true) all_data ->
  assemble all_data category start_timestamp
  = Ok (filter_and_sort (row_to_candle <$> all_data) start_timestamp).
Proof.
  intros Hwidth Htimes. unfold assemble.
  destruct all_data as [|r rest]; [by rewrite filter_and_sort_nil|].
  unfold _convert_to_dataframe. rewrite (bool_decide_eq_true_2 _ Hwidth). cbv zeta.
  unfold to_datetime.
  assert (forallb (fun t => from_option representable true t)
            (timestamp <$> (row_to_candle <$> r :: rest)) = true) as ->; [|done].
  clear Hwidth. induction Htimes as [|r' rest' Hr' _ IH]; [done|].
  rewrite !fmap_cons. simpl forallb. apply andb_true_iff. by split.
Qed.

Lemma sort_values_elem (c : Candle) (df : list Candle) :
  c ∈ sort_values df <-> c ∈ df.
Proof. unfold sort_values. by rewrite merge_sort_Permutation. Qed.

Lemma assemble_keeps (r : Row) (all_data : list Row) start_timestamp :
  r ∈ all_data ->
  (forall s, start_timestamp = Some s -> s ≠ 0 -> at_or_after s (row_to_candle r) = true) ->
  row_to_candle r ∈ filter_and_sort (row_to_candle <$> all_data) start_timestamp.
Proof.
  intros Hin Hkeep. unfold filter_and_sort.
  apply sort_values_elem.
  assert (row_to_candle r ∈ row_to_candle <$> all_data) as Hdf.
  { by apply list_elem_of_fmap_2. }
  destruct start_timestamp as [s|]; simpl; [|done].
  unfold truthy_int. destruct (Z.eqb_spec s 0) as [->|Hs]; simpl; [done|].
  apply list_elem_of_filter. split; [|done]. by apply Hkeep.
Qed.

(** C6 (amended). When a page's oldest row carries exactly the
    timestamp the start resolved to, the candle of that row is in every
    series the run returns: the lower bound is inclusive.  When moreover
    that timestamp is not zero, the loop ends on that page: it is the last
    call of the run, and the run returns the series assembled from the
    rows fetched, or raises what building their frame raises; it returns
    when the widest fetched row has seven cells and every fetched
    timestamp can be shown as a date. *)
Theorem boundary_row_at_start_is_kept {World : Type}
    (http_get : World -> Params -> HttpReply Row * World)
    fuel w now_ms symbol interval start_date end_date category
    o w' calls (i : nat) p body row s :
  get_ohlcv http_get fuel w now_ms symbol interval start_date end_date category
    = (o, w', calls) ->
  resolve_start start_date = Ok (Some s) ->
  calls !! i = Some (p, Ok body) ->
  last (rows_of body) = Some row ->
  row_ts row = CInt s ->
  (forall df, o = Returned df -> row_to_candle row ∈ df) /\
  (s ≠ 0 ->
   length calls = S i /\
   match assemble (fetched calls) category (Some s) with
   | Ok df => o = Returned df
   | Raise e => o = Raised e
   end /\
   (widest (fetched calls) = 7%nat ->
    Forall (fun r => from_option representable true (row_time r) = true)
      (fetched calls) ->
    exists df, o = Returned df)).
Proof.
  intros Hrun Hstart Hcall Hlast Hts.
  destruct (get_ohlcv_cases _ _ _ _ _ _ _ _ _ _ _ _ Hrun)
    as [(msg & _ & _ & ->)|(st & en & o' & _ & _ & _ & Hst & _ & Hloop & ->)].
  { by rewrite lookup_nil in Hcall. }
  rewrite Hstart in Hst. injection Hst as <-.
  assert (row ∈ rows_of body) as Hrow.
  { apply last_Some in Hlast as [l' ->].
    apply elem_of_app. right. by apply list_elem_of_singleton. }
  split.
  - intros df Hdf. apply finish_Returned in Hdf as (all & -> & ->%assemble_Ok).
    apply assemble_keeps.
    + by eapply fetch_loop_keeps_pages.
    + intros s' [= <-] _. unfold at_or_after, row_to_candle. simpl.
      rewrite Hts. simpl. by rewrite bool_decide_eq_true_2.
  - intros Hs.
    assert (rows_of body ≠ []) as Hne.
    { intros Hnil. rewrite Hnil in Hrow. by apply elem_of_nil in Hrow. }
    assert (after_page (Some s) (rows_of body) = Ok Break) as Hbreak.
    { rewrite (after_page_spec _ _ s).
      - assert (start_reached (Some s) s = true) as ->; [|done].
        apply start_reached_true. exists s. repeat split; [done|lia].
      - unfold oldest_timestamp. by rewrite Hlast, Hts. }
    destruct (fetch_loop_break _ _ _ _ _ _ _ _ _ _ _ _ _ _ _ Hloop Hcall Hne Hbreak)
      as (Hlen & all & -> & _).
    apply fetch_loop_fetched in Hloop as (new & Hnew & ->).
    rewrite !app_nil_l in *. subst new.
    split; [done|]. simpl finish. split.
    + by destruct (assemble (fetched calls) category (Some s)).
    + intros Hwidth Htimes.
      rewrite (assemble_builds _ category (Some s) Hwidth Htimes). by eexists.
Qed.

Lemma boundary_row_at_start_is_kept_witness :
  let run := get_ohlcv (history_get [1704067320000; 1704067260000; 1704067200000; 1704067140000])
               5 tt 0 "BTCUSDT" "1" (Some "2024-01-01") (Some "2024-01-01 00:02:00") "spot" in
  run.1.1 = Returned [plain_candle 1704067200000; plain_candle 1704067260000;
                      plain_candle 1704067320000] /\
  (forall df, run.1.1 = Returned df -> row_to_candle (plain_row 1704067200000) ∈ df) /\
  (1704067200000 ≠ 0 ->
   length run.2 = 1%nat /\
   match assemble (fetched run.2) "spot" (Some 1704067200000) with
   | Ok df => run.1.1 = Returned df
   | Raise e => run.1.1 = Raised e
   end /\
   (widest (fetched run.2) = 7%nat ->
    Forall (fun r => from_option representable true (row_time r) = true)
      (fetched run.2) ->
    exists df, run.1.1 = Returned df)).
Proof.
  intros run. split; [reflexivity|].
  apply (boundary_row_at_start_is_kept
           (history_get [1704067320000; 1704067260000; 1704067200000; 1704067140000])
           5 tt 0 "BTCUSDT" "1" (Some "2024-01-01") (Some "2024-01-01 00:02:00") "spot"
           run.1.1 run.1.2 run.2 0%nat
           (build_params "spot" "BTCUSDT" "1" (Some 1704067200000) 1704067320000)
           (page_body [plain_row 1704067320000; plain_row 1704067260000;
                       plain_row 1704067200000])
           (plain_row 1704067200000) 1704067200000); reflexivity.
Defined.

(** C6 as stated fails when the start resolves to zero: with the start
    date 1970-01-01 and a full first page whose oldest row has timestamp
    0, that of the start, the loop does not stop on that page but issues a
    second call.  And a loop that stops on the boundary page need not end
    in a series: when that page's row has the timestamp cell alone, the
    frame cannot be built and the run raises. *)
Lemma boundary_row_counterexample :
  let run := get_ohlcv script_get 5
               [Json (page_body (descending_from 1000 0 60000))]
               86400000 "BTCUSDT" "1" (Some "1970-01-01") None "spot" in
  let narrow := {| row_ts := CInt 86400000; row_ohlcv := [] |} in
  let cut := get_ohlcv script_get 5 [Json (page_body [narrow])]
               172800000 "BTCUSDT" "1" (Some "1970-01-02") None "spot" in
  resolve_start (Some "1970-01-01") = Ok (Some 0) /\
  (exists p, run.2 !! 0%nat
             = Some (p, Ok (page_body (descending_from 1000 0 60000)))) /\
  (row_ts <$> last (descending_from 1000 0 60000)) = Some (CInt 0) /\
  length run.2 = 2%nat /\
  resolve_start (Some "1970-01-02") = Ok (Some 86400000) /\
  length cut.2 = 1%nat /\
  cut.1.1 = Raised (ValueError "7 columns passed, passed data had 1 columns").
Proof.
  intros run narrow cut. split; [reflexivity|].
  split; [|repeat split; vm_compute; reflexivity].
  eexists. vm_compute. reflexivity.
Qed.

(** ** Falsy dates *)

Lemma after_page_start_zero (data : list Row) :
  after_page (Some 0) data = after_page None data.
Proof. reflexivity. Qed.

Lemma fetch_loop_start_zero {World : Type}
    (http_get : World -> Params -> HttpReply Row * World)
    category symbol interval fuel : forall w all_data current_end calls,
  fetch_loop http_get category symbol interval (Some 0) fuel w all_data current_end calls
  = fetch_loop http_get category symbol interval None fuel w all_data current_end calls.
Proof.
  induction fuel as [|fuel IH]; intros w all_data current_end calls; [reflexivity|].
  rewrite !fetch_loop_unfold.
  change (build_params category symbol interval (Some 0) current_end)
    with (build_params category symbol interval None current_end).
  destruct (_make_api_request _ _ _) as [[body|e] w1]; cbv beta iota zeta; [|done].
  destruct (rows_of body) as [|r data]; [done|].
  rewrite after_page_start_zero.
  destruct (after_page None (r :: data)) as [[|c]|e]; [done| |done].
  apply IH.
Qed.

Lemma assemble_start_zero (all_data : list Row) (category : string) :
  assemble all_data category (Some 0) = assemble all_data category None.
Proof. reflexivity. Qed.

(** C10. Falsy dates count as absent.  An empty start date resolves to no
    lower bound and an empty end date to the clock, neither raising; and a
    start date that resolves to epoch millisecond 0, such as 1970-01-01,
    gives the very run that no start date gives: the same calls with the
    same parameters, the same outcome and the same series. *)
Theorem falsy_dates_count_as_absent {World : Type}
    (http_get : World -> Params -> HttpReply Row * World)
    fuel w now_ms symbol interval start_date end_date category (d : string) :
  _parse_date_to_timestamp d = Ok 0 ->
  resolve_start (Some "") = Ok None /\
  resolve_end (Some "") now_ms = Ok now_ms /\
  get_ohlcv http_get fuel w now_ms symbol interval (Some "") end_date category
    = get_ohlcv http_get fuel w now_ms symbol interval None end_date category /\
  get_ohlcv http_get fuel w now_ms symbol interval start_date (Some "") category
    = get_ohlcv http_get fuel w now_ms symbol interval start_date None category /\
  get_ohlcv http_get fuel w now_ms symbol interval (Some d) end_date category
    = get_ohlcv http_get fuel w now_ms symbol interval None end_date category.
Proof.
  intros Hd. do 4 (split; [reflexivity|]).
  unfold get_ohlcv.
  assert (resolve_start (Some d) = Ok (Some 0)) as ->.
  { unfold resolve_start. destruct d as [|a d']; [discriminate|].
    simpl truthy_str. cbv iota. by rewrite Hd. }
  change (resolve_start None) with (Ok (@None Z)). cbv iota.
  repeat case_bool_decide; try done.
  destruct (resolve_end end_date now_ms) as [en|e]; [|done].
  rewrite fetch_loop_start_zero.
  destruct (fetch_loop _ _ _ _ _ _ _ _ _ _) as [[o w1] calls1].
  by destruct o.
Qed.

Lemma falsy_dates_count_as_absent_witness :
  get_ohlcv (history_get [1704067260000; 1704067200000]) 5 tt 1704067300000
    "BTCUSDT" "1" (Some "1970-01-01") None "spot"
  = get_ohlcv (history_get [1704067260000; 1704067200000]) 5 tt 1704067300000
      "BTCUSDT" "1" None None "spot".
Proof.
  apply (falsy_dates_count_as_absent (history_get [1704067260000; 1704067200000])
           5 tt 1704067300000 "BTCUSDT" "1" None None "spot" "1970-01-01" eq_refl).
Defined.

(** ** Symbol discovery *)

Lemma symbols_of_mapM (instruments : list Instrument) :
  symbols_of instruments =
    match mapM inst_symbol instruments with
    | Some symbols => Ok symbols
    | None => Raise (KeyError "symbol")
    end.
Proof.
  induction instruments as [|i rest IH]; [reflexivity|].
  simpl. destruct (inst_symbol i) as [s|]; [|reflexivity].
  rewrite IH. simpl. by destruct (mapM inst_symbol rest).
Qed.

Lemma sorted_spec (symbols : list string) :
  StronglySorted String.le (sorted symbols) /\ sorted symbols ≡ₚ symbols.
Proof.
  split.
  - apply StronglySorted_merge_sort; apply _.
  - apply merge_sort_Permutation.
Qed.

Example symbols_sorted :
  get_available_symbols script_get
    [Json (page_body [ {| inst_symbol := Some "ETHUSDT" |};
                       {| inst_symbol := Some "BTCUSDT" |};
                       {| inst_symbol := Some "ADAUSDT" |} ])] "spot"
  = (Ok ["ADAUSDT"; "BTCUSDT"; "ETHUSDT"], []).
Proof. vm_compute. reflexivity. Qed.

Example symbols_undecodable :
  get_available_symbols script_get
    [Json (page_body [ {| inst_symbol := Some "ETHUSDT" |};
                       {| inst_symbol := None |} ])] "spot"
  = (Ok [], []).
Proof. vm_compute. reflexivity. Qed.

(** C9. [get_available_symbols] never raises.  It returns the empty list
    when the transport fails, when the status code is not zero and when an
    instrument cannot be decoded; otherwise it returns the provider's
    symbols in ascending order. *)
Theorem get_available_symbols_never_raises {World : Type}
    (http_get_instruments : World -> string -> HttpReply Instrument * World)
    (w : World) (category : string) :
  exists symbols,
    get_available_symbols http_get_instruments w category
      = (Ok symbols, (http_get_instruments w category).2) /\
    match (http_get_instruments w category).1 with
    | Failed _ => symbols = []
    | Json data =>
        if bool_decide (retCode data = Some 0) then
          match mapM inst_symbol (rows_of data) with
          | Some provided =>
              symbols ≡ₚ provided /\ StronglySorted String.le symbols
          | None => symbols = []
          end
        else symbols = []
    end.
Proof.
  unfold get_available_symbols, try_available_symbols.
  destruct (http_get_instruments w category) as [[e|data] w1]; simpl.
  - by exists [].
  - unfold check_body. case_bool_decide as Hcode; simpl.
    + rewrite symbols_of_mapM.
      destruct (mapM inst_symbol (rows_of data)) as [provided|]; simpl.
      * exists (sorted provided). split; [done|].
        destruct (sorted_spec provided). by split.
      * by exists [].
    + by exists [].
Qed.

(** ** Full pages followed by a short one *)

Lemma script_request (page : list Row) (rest : list (HttpReply Row)) (params : Params) :
  _make_api_request script_get (Json (page_body page) :: rest) params
  = (Ok (page_body page), rest).
Proof. reflexivity. Qed.

Lemma fetch_loop_paged category symbol interval start_timestamp last_page rest :
  ends_run last_page ->
  forall pages fuel all_data current_end calls,
    Forall (goes_on start_timestamp) pages ->
    (length pages < fuel)%nat ->
    exists new,
      fetch_loop script_get category symbol interval start_timestamp fuel
        (paged_script pages last_page rest) all_data current_end calls
      = (Returned (all_data ++ concat pages ++ last_page), rest, calls ++ new)
      /\ new.*1 = build_params category symbol interval start_timestamp
                    <$> cursors current_end pages.
Proof.
  intros [Hshort Hlast].
  induction pages as [|page pages IH]; intros fuel all_data current_end calls Hfull Hfuel;
    (destruct fuel as [|fuel]; [simpl in Hfuel; lia|]).
  - unfold paged_script. simpl fmap. rewrite app_nil_l.
    rewrite fetch_loop_unfold, script_request. cbv beta iota zeta.
    change (rows_of (page_body last_page)) with last_page.
    exists [(build_params category symbol interval start_timestamp current_end,
             Ok (page_body last_page))].
    split; [|reflexivity].
    destruct last_page as [|r data] eqn:Hpage.
    { by rewrite !app_nil_r. }
    destruct Hlast as [?|[oldest Hold]]; [done|].
    rewrite (after_page_spec _ _ _ Hold).
    rewrite (bool_decide_eq_true_2 _ Hshort).
    by destruct (start_reached _ _).
  - apply Forall_cons in Hfull as [(Hlen & oldest & Hold & Hstart) Hfull].
    unfold paged_script. rewrite fmap_cons, <- app_comm_cons.
    rewrite fetch_loop_unfold, script_request. cbv beta iota zeta.
    change (rows_of (page_body page)) with page.
    destruct page as [|r data]; [discriminate Hlen|].
    rewrite (after_page_spec _ _ _ Hold), Hstart.
    rewrite bool_decide_eq_false_2 by lia.
    destruct (IH fuel (all_data ++ r :: data) (oldest - 1)
                (calls ++ [(build_params category symbol interval start_timestamp current_end,
                            Ok (page_body (r :: data)))]) Hfull)
      as (new & Hrun & Hnew); [simpl in Hfuel; lia|].
    exists ((build_params category symbol interval start_timestamp current_end,
             Ok (page_body (r :: data))) :: new).
    split.
    + unfold paged_script in Hrun. rewrite Hrun.
      simpl. rewrite <- !app_assoc. simpl. by rewrite <- ?app_assoc.
    + rewrite fmap_cons, Hnew. simpl cursors. unfold next_cursor.
      by rewrite Hold.
Qed.

Lemma cursors_length (current_end : Z) (pages : list (list Row)) :
  length (cursors current_end pages) = S (length pages).
Proof.
  revert current_end. induction pages as [|page pages IH]; intros c; [done|].
  simpl. by rewrite IH.
Qed.

Lemma cursors_walk_back (pages : list (list Row)) : forall current_end,
  walks_back current_end pages ->
  Forall (fun c => c ≤ current_end) (cursors current_end pages) /\
  NoDup (cursors current_end pages).
Proof.
  induction pages as [|page pages IH]; intros c Hwalk.
  - simpl. split; [by repeat constructor|]. apply NoDup_singleton.
  - destruct Hwalk as (oldest & Hold & Hle & Hwalk).
    simpl. unfold next_cursor. rewrite Hold.
    destruct (IH _ Hwalk) as [Hbelow Hnodup].
    split.
    + constructor; [lia|]. eapply Forall_impl; [exact Hbelow|]. simpl. lia.
    + constructor; [|done]. intros Hin.
      rewrite Forall_forall in Hbelow. apply Hbelow in Hin. lia.
Qed.

Lemma full_pages_length (start_timestamp : option Z) (pages : list (list Row)) :
  Forall (goes_on start_timestamp) pages ->
  length (concat pages) = (length pages * MAX_LIMIT)%nat.
Proof.
  induction 1 as [|page pages [Hlen _] _ IH]; [done|].
  simpl concat. rewrite length_app, IH, Hlen. simpl. lia.
Qed.

(** C5 (amended). Against a provider that serves [pages], each of exactly
    [MAX_LIMIT] rows, decodable at its oldest row and not reaching the
    start, and then one page of fewer rows, the loop returns after exactly
    one call more than there are full pages, leaves the rest of the script
    untouched, and has accumulated all the rows served: that many times
    [MAX_LIMIT] plus the length of the short page.  If moreover each full
    page's oldest row is at or before the cursor it was asked with, no
    cursor is used twice. *)
Theorem full_pages_then_short_page category symbol interval start_timestamp end_timestamp
    (pages : list (list Row)) (last_page : list Row)
    (rest : list (HttpReply Row)) (fuel : nat) :
  Forall (goes_on start_timestamp) pages ->
  ends_run last_page ->
  (length pages < fuel)%nat ->
  exists calls,
    fetch_loop script_get category symbol interval start_timestamp fuel
      (paged_script pages last_page rest) [] end_timestamp []
    = (Returned (concat pages ++ last_page), rest, calls) /\
    length calls = S (length pages) /\
    length (concat pages ++ last_page)
    = (length pages * MAX_LIMIT + length last_page)%nat /\
    calls.*1 = build_params category symbol interval start_timestamp
                 <$> cursors end_timestamp pages /\
    (walks_back end_timestamp pages -> NoDup (cursors end_timestamp pages)).
Proof.
  intros Hfull Hlast Hfuel.
  destruct (fetch_loop_paged category symbol interval start_timestamp last_page rest
              Hlast pages fuel [] end_timestamp [] Hfull Hfuel) as (new & Hrun & Hnew).
  exists new. rewrite !app_nil_l in Hrun.
  split; [done|]. split; [|split; [|split]].
  - rewrite <- (length_fmap fst new), Hnew, length_fmap. apply cursors_length.
  - rewrite length_app. by rewrite (full_pages_length start_timestamp).
  - done.
  - intros Hwalk. by apply cursors_walk_back.
Qed.

Lemma full_pages_then_short_page_witness :
  exists calls,
    fetch_loop script_get "spot" "BTCUSDT" "1" None 5
      (paged_script [descending_from 1000 1704067200000 60000]
         (descending_from 3 1704067020000 60000) [])
      [] 1704127200000 []
    = (Returned (concat [descending_from 1000 1704067200000 60000]
                 ++ descending_from 3 1704067020000 60000), [], calls) /\
    length calls = 2%nat /\
    length (concat [descending_from 1000 1704067200000 60000]
            ++ descending_from 3 1704067020000 60000)
    = (1 * MAX_LIMIT + 3)%nat /\
    calls.*1 = build_params "spot" "BTCUSDT" "1" None
                 <$> cursors 1704127200000 [descending_from 1000 1704067200000 60000] /\
    (walks_back 1704127200000 [descending_from 1000 1704067200000 60000] ->
     NoDup (cursors 1704127200000 [descending_from 1000 1704067200000 60000])).
Proof.
  apply (full_pages_then_short_page "spot" "BTCUSDT" "1" None 1704127200000
           [descending_from 1000 1704067200000 60000]
           (descending_from 3 1704067020000 60000) [] 5).
  - constructor; [|constructor]. split; [vm_compute; reflexivity|].
    exists 1704067200000. split; vm_compute; reflexivity.
  - split; [vm_compute; lia|]. right. exists 1704067020000. reflexivity.
  - simpl. lia.
Defined.

(** C5 as stated fails for a provider whose pages do not move back in
    time: served the same full page twice and then an empty page, the
    loop issues its second and its third call with the same cursor.  And
    a full page whose oldest timestamp does not decode makes the loop
    raise after its first call. *)
Lemma repeated_cursor_counterexample :
  Forall (goes_on None) [descending_from 1000 1704067200000 60000;
                         descending_from 1000 1704067200000 60000] /\
  ends_run [] /\
  p_end <$> (fetch_loop script_get "spot" "BTCUSDT" "1" None 5
               (paged_script [descending_from 1000 1704067200000 60000;
                              descending_from 1000 1704067200000 60000] [] [])
               [] 1704127200000 []).2.*1
  = [Some 1704127200000; Some 1704067199999; Some 1704067199999] /\
  length (descending_from 999 1704067260000 60000
          ++ [ {| row_ts := CBad; row_ohlcv := [] |} ]) = MAX_LIMIT /\
  (fetch_loop script_get "spot" "BTCUSDT" "1" None 5
     (paged_script [descending_from 999 1704067260000 60000
                    ++ [ {| row_ts := CBad; row_ohlcv := [] |} ]] [] [])
     [] 1704127200000 []).1.1
  = Raised (ValueError "invalid literal for int() with base 10").
Proof.
  split; [|split; [|split; [|split]]].
  - repeat constructor; try (vm_compute; reflexivity);
      exists 1704067200000; split; vm_compute; reflexivity.
  - split; [vm_compute; lia|]. by left.
  - vm_compute. reflexivity.
  - vm_compute. reflexivity.
  - vm_compute. reflexivity.
Qed.

(** ** Order of the returned series *)

Lemma assemble_sorted (df : list Candle) start_timestamp :
  StronglySorted candle_le (filter_and_sort df start_timestamp).
Proof. apply StronglySorted_merge_sort; apply _. Qed.

Lemma assemble_Permutation (all_data : list Row) start_timestamp :
  exists df, df `sublist_of` (row_to_candle <$> all_data) /\
             filter_and_sort (row_to_candle <$> all_data) start_timestamp ≡ₚ df.
Proof.
  unfold filter_and_sort, sort_values.
  destruct (truthy_opt start_timestamp), start_timestamp as [s|];
    eexists; (split; [|apply merge_sort_Permutation]);
    try done; apply sublist_filter.
Qed.

Lemma newest_first_NoDup (data : list Row) :
  StronglySorted row_newer data -> NoDup (row_time <$> data).
Proof.
  induction 1 as [|r data _ IH Hnewer]; [constructor|].
  rewrite fmap_cons. apply NoDup_cons. split; [|done].
  intros (r' & Heq & Hin)%list_elem_of_fmap.
  rewrite Forall_forall in Hnewer.
  destruct (Hnewer r' Hin) as (a & b & Ha & Hb & Hlt).
  rewrite Ha, Hb in Heq. injection Heq as ->. lia.
Qed.

Lemma strict_of_sorted (df : list Candle) :
  StronglySorted candle_le df ->
  NoDup (timestamp <$> df) ->
  Forall (fun c => is_Some (timestamp c)) df ->
  StronglySorted candle_lt df.
Proof.
  induction 1 as [|c df _ IH Hle]; intros Hnodup Hsome; [constructor|].
  rewrite fmap_cons in Hnodup. apply NoDup_cons in Hnodup as [Hnotin Hnodup].
  apply Forall_cons in Hsome as [[a Ha] Hsome].
  constructor; [by apply IH|].
  rewrite Forall_forall in *. intros c' Hin.
  destruct (Hsome c' Hin) as [b Hb].
  exists a, b. repeat split; [done..|].
  specialize (Hle c' Hin). unfold candle_le in Hle. rewrite Ha, Hb in Hle. simpl in Hle.
  assert (a ≠ b); [|lia]. intros ->.
  apply Hnotin. rewrite Ha, <- Hb. by apply list_elem_of_fmap_2.
Qed.

Lemma assemble_strict (all_data : list Row) start_timestamp :
  newest_first all_data ->
  StronglySorted candle_lt (filter_and_sort (row_to_candle <$> all_data) start_timestamp).
Proof.
  intros [Hsome Hsorted].
  destruct (assemble_Permutation all_data start_timestamp)
    as (df & Hsub & Hperm).
  apply strict_of_sorted.
  - apply assemble_sorted.
  - rewrite Hperm. eapply sublist_NoDup; [|by apply fmap_sublist].
    rewrite <- list_fmap_compose. by apply newest_first_NoDup.
  - rewrite Hperm. apply Forall_forall. intros c Hc.
    apply (elem_of_sublist _ _ _ Hc) in Hsub.
    apply list_elem_of_fmap in Hsub as (r & -> & Hr).
    rewrite Forall_forall in Hsome. by apply Hsome.
Qed.

(** ** Runs against a provider that keeps its side of the contract *)

Lemma build_params_end category symbol interval start_timestamp current_end :
  current_end ≠ 0 ->
  p_end (build_params category symbol interval start_timestamp current_end)
  = Some current_end.
Proof.
  intros Hne. simpl. unfold truthy_int.
  by destruct (Z.eqb_spec current_end 0).
Qed.

Lemma oldest_is_last (data : list Row) (oldest : Z) :
  oldest_timestamp data = Ok oldest ->
  exists row, last data = Some row /\ row_time row = Some oldest /\ row ∈ data.
Proof.
  unfold oldest_timestamp, row_time.
  destruct (last data) as [row|] eqn:Hlast; [|discriminate].
  destruct (row_ts row) as [z|] eqn:Hts; simpl; [|discriminate].
  intros [= ->]. exists row. rewrite Hts. repeat split.
  apply last_Some in Hlast as [l' ->].
  apply elem_of_app. right. by apply list_elem_of_singleton.
Qed.

Lemma oldest_is_least (data : list Row) (oldest : Z) :
  newest_first data ->
  oldest_timestamp data = Ok oldest ->
  forall r t, r ∈ data -> row_time r = Some t -> oldest ≤ t.
Proof.
  intros [_ Hsorted] Hold r t Hin Ht.
  destruct (oldest_is_last _ _ Hold) as (row & Hlast & Hrow & _).
  apply last_Some in Hlast as [l' ->].
  apply elem_of_app in Hin as [Hin|Hin].
  - destruct (StronglySorted_app_1_elem_of _ _ _ r row Hsorted Hin)
      as (a & b & Ha & Hb & Hlt); [by apply list_elem_of_singleton|].
    rewrite Ha in Ht. rewrite Hb in Hrow. simplify_eq. lia.
  - apply list_elem_of_singleton in Hin as ->. rewrite Hrow in Ht. simplify_eq. lia.
Qed.

Lemma after_page_Ok (start_timestamp : option Z) (data : list Row) (ctl : Control) :
  after_page start_timestamp data = Ok ctl ->
  exists oldest, oldest_timestamp data = Ok oldest /\
                 (ctl = Break \/ ctl = Continue (oldest - 1)).
Proof.
  unfold after_page. destruct (oldest_timestamp data) as [oldest|e]; simpl; [|discriminate].
  intros H. exists oldest. split; [done|].
  destruct (start_reached _ _); [left; congruence|].
  destruct (bool_decide _); [left|right]; congruence.
Qed.

Section Honest.

Context {World : Type}.
Variable http_get : World -> Params -> HttpReply Row * World.
Variables category symbol interval : string.
Variable start_timestamp : option Z.

Hypothesis Hwindow : pages_in_window http_get.
Hypothesis Hepoch : pages_past_epoch http_get.

(** With the [end] sent on every call, nothing later than the first
    cursor is ever accumulated. *)
Lemma fetch_loop_below_end (e : Z) (fuel : nat) :
  forall w all_data current_end calls all w' calls',
    current_end ≤ e -> current_end ≠ 0 ->
    (forall r t, r ∈ all_data -> row_time r = Some t -> t ≤ e) ->
    fetch_loop http_get category symbol interval start_timestamp
      fuel w all_data current_end calls = (Returned all, w', calls') ->
    forall r t, r ∈ all -> row_time r = Some t -> t ≤ e.
Proof.
  induction fuel as [|fuel IH];
    intros w all_data current_end calls all w' calls' Hle Hne Hacc; [discriminate|].
  rewrite fetch_loop_unfold.
  destruct (_make_api_request _ _ _) as [[body|err] w1] eqn:Hreq;
    cbv beta iota zeta; [|discriminate].
  pose proof (Hwindow _ _ _ _ Hreq) as Hwin.
  pose proof (Hepoch _ _ _ _ Hreq) as Hep.
  destruct (rows_of body) as [|r0 data] eqn:Hrows.
  { intros [= <- <- <-]. exact Hacc. }
  assert (forall r t, r ∈ all_data ++ r0 :: data -> row_time r = Some t -> t ≤ e) as Hacc'.
  { intros r t [Hin|Hin]%elem_of_app Ht; [by eapply Hacc|].
    transitivity current_end; [|done].
    eapply Hwin; [by apply build_params_end|exact Hin|exact Ht]. }
  destruct (after_page _ _) as [ctl|err] eqn:Hafter; [|discriminate].
  destruct (after_page_Ok _ _ _ Hafter) as (oldest & Hold & [->| ->]).
  { intros [= <- <- <-]. exact Hacc'. }
  destruct (oldest_is_last _ _ Hold) as (row & _ & Hrow & Hin).
  apply IH; [|  |exact Hacc'].
  - assert (oldest ≤ current_end); [|lia].
    eapply Hwin; [by apply build_params_end|exact Hin|exact Hrow].
  - specialize (Hep row oldest Hin Hrow). lia.
Qed.

Hypothesis Hnewest : pages_newest_first http_get.

(** Successive pages then stack up into one strictly descending list. *)
Lemma fetch_loop_newest_first (fuel : nat) :
  forall w all_data current_end calls all w' calls',
    newest_first all_data ->
    (forall r t, r ∈ all_data -> row_time r = Some t -> current_end < t) ->
    (all_data ≠ [] -> current_end ≠ 0) ->
    fetch_loop http_get category symbol interval start_timestamp
      fuel w all_data current_end calls = (Returned all, w', calls') ->
    newest_first all.
Proof.
  induction fuel as [|fuel IH];
    intros w all_data current_end calls all w' calls' Hacc Habove Hne; [discriminate|].
  rewrite fetch_loop_unfold.
  destruct (_make_api_request _ _ _) as [[body|err] w1] eqn:Hreq;
    cbv beta iota zeta; [|discriminate].
  pose proof (Hwindow _ _ _ _ Hreq) as Hwin.
  pose proof (Hepoch _ _ _ _ Hreq) as Hep.
  pose proof (Hnewest _ _ _ _ Hreq) as Hnew.
  destruct (rows_of body) as [|r0 data] eqn:Hrows.
  { by intros [= <- <- <-]. }
  assert (forall r t, r ∈ r0 :: data -> row_time r = Some t ->
                      all_data ≠ [] -> t ≤ current_end) as Hbelow.
  { intros r t Hin Ht Hnonempty.
    eapply Hwin; [apply build_params_end; by apply Hne|exact Hin|exact Ht]. }
  assert (newest_first (all_data ++ r0 :: data)) as Hacc'.
  { destruct Hacc as [Hsome Hsorted], Hnew as [Hsome' Hsorted'].
    split; [by apply Forall_app|].
    apply StronglySorted_app_2; [|done..].
    intros r1 r2 Hin1 Hin2.
    rewrite Forall_forall in Hsome, Hsome'.
    destruct (Hsome _ Hin1) as [a Ha], (Hsome' _ Hin2) as [b Hb].
    exists a, b. repeat split; [done..|].
    specialize (Habove _ _ Hin1 Ha).
    assert (b ≤ current_end); [|lia].
    eapply Hbelow; [exact Hin2|exact Hb|]. intros ->. by apply elem_of_nil in Hin1. }
  destruct (after_page _ _) as [ctl|err] eqn:Hafter; [|discriminate].
  destruct (after_page_Ok _ _ _ Hafter) as (oldest & Hold & [->| ->]).
  { by intros [= <- <- <-]. }
  destruct (oldest_is_last _ _ Hold) as (row & _ & Hrow & Hin).
  apply IH; [exact Hacc'| |].
  - intros r t [Hr|Hr]%elem_of_app Ht.
    + specialize (Habove _ _ Hr Ht).
      assert (oldest ≤ current_end); [|lia].
      eapply Hbelow; [exact Hin|exact Hrow|]. intros ->. by apply elem_of_nil in Hr.
    + pose proof (oldest_is_least _ _ Hnew Hold r t Hr Ht). lia.
  - intros _. specialize (Hep row oldest Hin Hrow). lia.
Qed.

End Honest.

Lemma candle_lt_NoDup (df : list Candle) :
  StronglySorted candle_lt df -> NoDup (timestamp <$> df).
Proof.
  induction 1 as [|c df _ IH Hlt]; [constructor|].
  rewrite fmap_cons. apply NoDup_cons. split; [|done].
  intros (c' & Heq & Hin)%list_elem_of_fmap.
  rewrite Forall_forall in Hlt.
  destruct (Hlt c' Hin) as (a & b & Ha & Hb & Hab).
  rewrite Ha, Hb in Heq. injection Heq as ->. lia.
Qed.

Lemma assemble_from_rows (c : Candle) (all_data : list Row) start_timestamp :
  c ∈ filter_and_sort (row_to_candle <$> all_data) start_timestamp ->
  exists r, r ∈ all_data /\ c = row_to_candle r.
Proof.
  intros Hc.
  destruct (assemble_Permutation all_data start_timestamp)
    as (df & Hsub & Hperm).
  rewrite Hperm in Hc. apply (elem_of_sublist _ _ _ Hc) in Hsub.
  apply list_elem_of_fmap in Hsub as (r & -> & Hr). eauto.
Qed.

Lemma assemble_at_or_after (c : Candle) (df : list Candle) (s : Z) :
  s ≠ 0 ->
  c ∈ filter_and_sort df (Some s) ->
  exists t, timestamp c = Some t /\ s ≤ t.
Proof.
  intros Hs. unfold filter_and_sort.
  simpl truthy_opt. unfold truthy_int.
  destruct (Z.eqb_spec s 0) as [|_]; [done|]. simpl negb. cbv iota.
  rewrite sort_values_elem, list_elem_of_filter. intros [Hkeep _].
  unfold at_or_after in Hkeep. destruct (timestamp c) as [t|]; [|discriminate].
  apply bool_decide_eq_true in Hkeep. eauto.
Qed.

(** ** The history provider keeps the contract *)

Lemma StronglySorted_sublist {A} (R : relation A) (l1 l2 : list A) :
  l1 `sublist_of` l2 -> StronglySorted R l2 -> StronglySorted R l1.
Proof.
  induction 1 as [|x l1 l2 Hsub IH|x l1 l2 Hsub IH]; intros Hsorted.
  - constructor.
  - apply StronglySorted_cons in Hsorted as [Hall Hsorted].
    constructor; [by apply IH|].
    rewrite Forall_forall in *. intros y Hy. apply Hall.
    by eapply elem_of_sublist.
  - apply StronglySorted_cons in Hsorted as [_ Hsorted]. by apply IH.
Qed.

Lemma plain_rows_newest_first (l : list Z) :
  StronglySorted (fun a b => b < a) l -> StronglySorted row_newer (plain_row <$> l).
Proof.
  induction 1 as [|t l _ IH Hall]; [constructor|].
  rewrite fmap_cons. constructor; [done|].
  apply Forall_fmap. eapply Forall_impl; [exact Hall|].
  intros t' Hlt. by exists t, t'.
Qed.

Lemma history_request (history : list Z) (w : unit) (params : Params) body w' :
  _make_api_request (history_get history) w params = (Ok body, w') ->
  rows_of body = plain_row <$> take (p_limit params)
                   (filter (fun t => within params t = true) history).
Proof. unfold _make_api_request, history_get, check_body. simpl. by intros [= <- _]. Qed.

Lemma history_get_contract (history : list Z) :
  StronglySorted (fun a b => b < a) history ->
  Forall (fun t => 1 < t) history ->
  pages_newest_first (history_get history) /\
  pages_in_window (history_get history) /\
  pages_past_epoch (history_get history).
Proof.
  intros Hsorted Hpast.
  assert (forall params, take (p_limit params)
            (filter (fun t => within params t = true) history) `sublist_of` history) as Hsub.
  { intros params. etransitivity; [apply sublist_take|apply sublist_filter]. }
  split; [|split]; intros w params body w' Hreq;
    rewrite (history_request _ _ _ _ _ Hreq); specialize (Hsub params).
  - split.
    + apply Forall_fmap, Forall_forall. intros t _. by exists t.
    + apply plain_rows_newest_first. by eapply StronglySorted_sublist.
  - intros e r t He (t' & -> & Hin)%list_elem_of_fmap [= <-].
    apply elem_of_take in Hin as (i & Hin & _).
    apply list_elem_of_lookup_2, list_elem_of_filter in Hin as [Hwithin _].
    unfold within in Hwithin. rewrite He in Hwithin.
    apply andb_true_iff in Hwithin as [Hle _]. by apply bool_decide_eq_true in Hle.
  - intros r t (t' & -> & Hin)%list_elem_of_fmap [= <-].
    apply (elem_of_sublist _ _ _ Hin) in Hsub.
    rewrite Forall_forall in Hpast. by apply Hpast.
Qed.

(** A cursor of zero is falsy, so the call that follows carries no [end]:
    this is why the contract asks for rows past the first millisecond.
    Over a history that reaches back to millisecond 1, the provider below
    answers every window it is sent faithfully, and the fetch still
    returns timestamps twice. *)
Lemma cursor_zero_is_not_sent category symbol interval start_timestamp :
  p_end (build_params category symbol interval start_timestamp 0) = None.
Proof. reflexivity. Qed.

Example rows_at_the_epoch :
  let history := 2000 :: ((fun n => Z.of_nat n) <$> reverse (seq 1 1000)) in
  let run := get_ohlcv (history_get history) 5 tt 0
               "BTCUSDT" "1" None (Some "1970-01-01 00:00:01") "spot" in
  p_end <$> run.2.*1 = [Some 1000; None; Some 1] /\
  exists df, run.1.1 = Returned df /\
             timestamp <$> take 4 df = [Some 1; Some 1; Some 2; Some 2].
Proof.
  intros history run. split; [vm_compute; reflexivity|].
  eexists. split; [vm_compute; reflexivity|]. vm_compute. reflexivity.
Qed.

(** ** The returned series *)

(** C1 (amended). The series of a successful fetch is sorted ascending
    by timestamp, rows without a timestamp last.  When every page the
    provider serves is strictly newest first, holds no row later than the
    [end] it was asked and no row at or before the first millisecond of
    the epoch, the timestamps are strictly increasing, so none occurs
    twice. *)
Theorem series_sorted_by_timestamp {World : Type}
    (http_get : World -> Params -> HttpReply Row * World)
    fuel w now_ms symbol interval start_date end_date category df w' calls :
  get_ohlcv http_get fuel w now_ms symbol interval start_date end_date category
    = (Returned df, w', calls) ->
  StronglySorted candle_le df /\
  (pages_newest_first http_get -> pages_in_window http_get ->
   pages_past_epoch http_get ->
   StronglySorted candle_lt df /\ NoDup (timestamp <$> df)).
Proof.
  intros Hrun.
  destruct (get_ohlcv_cases _ _ _ _ _ _ _ _ _ _ _ _ Hrun)
    as [(msg & [=] & _)|(st & en & o' & _ & _ & _ & _ & _ & Hloop & Hfin)].
  symmetry in Hfin. apply finish_Returned in Hfin as (all & -> & ->%assemble_Ok).
  split; [apply assemble_sorted|].
  intros Hnewest Hwindow Hepoch.
  assert (StronglySorted candle_lt (filter_and_sort (row_to_candle <$> all) st))
    as Hstrict.
  { apply assemble_strict.
    eapply (fetch_loop_newest_first http_get category symbol interval st
              Hwindow Hepoch Hnewest fuel w [] en []); [| | |exact Hloop].
    - split; constructor.
    - by intros r t ?%elem_of_nil.
    - done. }
  split; [done|]. by apply candle_lt_NoDup.
Qed.

Lemma series_sorted_by_timestamp_witness :
  let history := [1704067320000; 1704067260000; 1704067200000] in
  let run := get_ohlcv (history_get history) 5 tt 1704067400000
               "BTCUSDT" "1" (Some "2024-01-01 00:01:00") None "spot" in
  let df := [ plain_candle 1704067260000;
              plain_candle 1704067320000 ] in
  run.1.1 = Returned df /\
  StronglySorted candle_le df /\
  StronglySorted candle_lt df /\ NoDup (timestamp <$> df).
Proof.
  intros history run df. split; [reflexivity|].
  destruct (series_sorted_by_timestamp (history_get history)
              5 tt 1704067400000 "BTCUSDT" "1" (Some "2024-01-01 00:01:00") None "spot"
              df run.1.2 run.2 eq_refl) as [Hsorted Hstrict].
  split; [exact Hsorted|].
  destruct (history_get_contract history) as (Hnewest & Hwindow & Hepoch).
  - repeat constructor; lia.
  - repeat constructor; lia.
  - exact (Hstrict Hnewest Hwindow Hepoch).
Defined.

(** C1 as stated fails: the code sorts but removes nothing, so a
    timestamp the provider serves twice is returned twice. *)
Lemma duplicate_timestamp_counterexample :
  (get_ohlcv script_get 5
     [Json (page_body [plain_row 1704067200000; plain_row 1704067200000])]
     1704067260000 "BTCUSDT" "1" None None "spot").1.1
  = Returned [ plain_candle 1704067200000;
               plain_candle 1704067200000 ].
Proof. reflexivity. Qed.

Lemma newest_first_pages_decoded {World : Type}
    (http_get : World -> Params -> HttpReply Row * World) :
  pages_newest_first http_get -> pages_decoded http_get.
Proof. intros Hnewest w params body w' Hreq. by destruct (Hnewest _ _ _ _ Hreq). Qed.

Lemma fetch_loop_decoded {World : Type}
    (http_get : World -> Params -> HttpReply Row * World)
    category symbol interval start_timestamp :
  pages_decoded http_get ->
  forall fuel w all_data current_end calls all w' calls',
    decoded all_data ->
    fetch_loop http_get category symbol interval start_timestamp
      fuel w all_data current_end calls = (Returned all, w', calls') ->
    decoded all.
Proof.
  intros Hdecoded.
  induction fuel as [|fuel IH];
    intros w all_data current_end calls all w' calls' Hacc; [discriminate|].
  rewrite fetch_loop_unfold.
  destruct (_make_api_request _ _ _) as [[body|err] w1] eqn:Hreq;
    cbv beta iota zeta; [|discriminate].
  pose proof (Hdecoded _ _ _ _ Hreq) as Hpage.
  destruct (rows_of body) as [|r0 data] eqn:Hrows.
  { by intros [= <- <- <-]. }
  assert (decoded (all_data ++ r0 :: data)) as Hacc' by (by apply Forall_app).
  destruct (after_page _ _) as [[|next]|err]; [| |discriminate].
  - by intros [= <- <- <-].
  - by apply IH.
Qed.

(** C2 (amended). In the series of a successful fetch, every candle is at
    or after a start that resolved to a timestamp other than zero.  The
    end is left to the provider: provided the resolved end is not zero and
    every page the provider serves holds no row later than the [end] it
    was asked and no row at or before the first millisecond of the epoch,
    no timestamp of the series is later than the resolved end; and when
    moreover every row served has a timestamp that is a number, every
    candle of the series has a timestamp, at or before the end. *)
Theorem series_within_bounds {World : Type}
    (http_get : World -> Params -> HttpReply Row * World)
    fuel w now_ms symbol interval start_date end_date category df w' calls :
  get_ohlcv http_get fuel w now_ms symbol interval start_date end_date category
    = (Returned df, w', calls) ->
  (forall s, resolve_start start_date = Ok (Some s) -> s ≠ 0 ->
     forall c, c ∈ df -> exists t, timestamp c = Some t /\ s ≤ t) /\
  (forall e, resolve_end end_date now_ms = Ok e -> e ≠ 0 ->
     pages_in_window http_get -> pages_past_epoch http_get ->
     (forall c t, c ∈ df -> timestamp c = Some t -> t ≤ e) /\
     (pages_decoded http_get ->
      forall c, c ∈ df -> exists t, timestamp c = Some t /\ t ≤ e)).
Proof.
  intros Hrun.
  destruct (get_ohlcv_cases _ _ _ _ _ _ _ _ _ _ _ _ Hrun)
    as [(msg & [=] & _)|(st & en & o' & _ & _ & _ & Hst & Hen & Hloop & Hfin)].
  symmetry in Hfin. apply finish_Returned in Hfin as (all & -> & ->%assemble_Ok).
  split.
  - intros s Hs Hnz c Hc. rewrite Hs in Hst. injection Hst as <-.
    by eapply assemble_at_or_after.
  - intros e He Hnz Hwindow Hepoch.
    rewrite He in Hen. injection Hen as <-.
    assert (forall c t, c ∈ filter_and_sort (row_to_candle <$> all) st ->
                        timestamp c = Some t -> t ≤ e) as Hupper.
    { intros c t Hc Ht. apply assemble_from_rows in Hc as (r & Hr & ->).
      eapply (fetch_loop_below_end http_get category symbol interval st
                Hwindow Hepoch e fuel w [] e []);
        [lia|done| |exact Hloop|exact Hr|exact Ht].
      by intros r' t' ?%elem_of_nil. }
    split; [exact Hupper|].
    intros Hdecoded c Hc.
    assert (decoded all) as Hall.
    { eapply (fetch_loop_decoded http_get category symbol interval st Hdecoded
                fuel w [] e []); [constructor|exact Hloop]. }
    destruct (assemble_from_rows _ _ _ Hc) as (r & Hr & Hcr).
    unfold decoded in Hall. rewrite Forall_forall in Hall.
    destruct (Hall r Hr) as [t Ht].
    exists t. assert (timestamp c = Some t) as Hct by (by rewrite Hcr).
    split; [done|]. by eapply Hupper.
Qed.

Lemma series_within_bounds_witness :
  let history := [1704067380000; 1704067320000; 1704067260000; 1704067200000] in
  let run := get_ohlcv (history_get history) 5 tt 1704067400000 "BTCUSDT" "1"
               (Some "2024-01-01 00:01:00") (Some "2024-01-01 00:02:00") "spot" in
  let df := [ plain_candle 1704067260000;
              plain_candle 1704067320000 ] in
  run.1.1 = Returned df /\
  (forall c, c ∈ df -> exists t, timestamp c = Some t /\ 1704067260000 ≤ t) /\
  (forall c t, c ∈ df -> timestamp c = Some t -> t ≤ 1704067320000) /\
  (forall c, c ∈ df -> exists t, timestamp c = Some t /\ t ≤ 1704067320000).
Proof.
  intros history run df. split; [reflexivity|].
  destruct (series_within_bounds (history_get history) 5 tt 1704067400000 "BTCUSDT" "1"
              (Some "2024-01-01 00:01:00") (Some "2024-01-01 00:02:00") "spot"
              df run.1.2 run.2 eq_refl) as [Hlower Hupper].
  split.
  - apply (Hlower 1704067260000 eq_refl). discriminate.
  - destruct (history_get_contract history) as (Hnewest & Hwindow & Hepoch).
    + repeat constructor; lia.
    + repeat constructor; lia.
    + destruct (Hupper 1704067320000 eq_refl) as [Hnumbers Hall];
        [discriminate|exact Hwindow|exact Hepoch|].
      split; [exact Hnumbers|].
      apply Hall. by apply newest_first_pages_decoded.
Defined.

(** C2 as stated fails.  The code filters on the start only, so a row
    that the provider serves later than the end asked is returned.  An
    end that resolves to zero is not even sent: asked for candles up to
    1970-01-01, the fetch returns candles of 2024.  Likewise a start that
    resolves to zero is neither sent nor filtered on, so a candle before
    it is returned.  And a row whose timestamp is not a number comes back,
    when no start filters it out, as a candle without a timestamp, which
    lies within no bounds. *)
Lemma end_bound_counterexample :
  resolve_end (Some "2024-01-01") 1704067400000 = Ok 1704067200000 /\
  (get_ohlcv script_get 5 [Json (page_body [plain_row 1704067260000])] 1704067400000
     "BTCUSDT" "1" None (Some "2024-01-01") "spot").1.1
  = Returned [ plain_candle 1704067260000 ] /\
  1704067200000 < 1704067260000 /\
  resolve_end (Some "1970-01-01") 1704067400000 = Ok 0 /\
  (get_ohlcv (history_get [1704067260000; 1704067200000]) 5 tt 1704067400000
     "BTCUSDT" "1" None (Some "1970-01-01") "spot").1.1
  = Returned [ plain_candle 1704067200000;
               plain_candle 1704067260000 ] /\
  0 < 1704067200000 /\
  resolve_start (Some "1970-01-01") = Ok (Some 0) /\
  (get_ohlcv (history_get [60000; 0; -60000]) 5 tt 1704067400000
     "BTCUSDT" "1" (Some "1970-01-01") (Some "1970-01-02") "spot").1.1
  = Returned [ plain_candle (-60000);
               plain_candle 0;
               plain_candle 60000 ] /\
  -60000 < 0 /\
  (get_ohlcv script_get 5
     [Json (page_body [plain_row 1704067260000;
                       {| row_ts := CBad; row_ohlcv := replicate 6 "0" |};
                       plain_row 1704067200000])] 1704067400000
     "BTCUSDT" "1" None None "spot").1.1
  = Returned [ plain_candle 1704067200000;
               plain_candle 1704067260000;
               {| timestamp := None; ohlcv := replicate 6 (Some "0") |} ].
Proof. repeat split; reflexivity. Qed.

(** * Further properties of the fetcher *)

(** ** The requests of a run *)

Section Requests.

Context {World : Type}.
Variable http_get : World -> Params -> HttpReply Row * World.
Variables category symbol interval : string.
Variable start_timestamp : option Z.

Abbreviation run_loop := (fetch_loop http_get category symbol interval start_timestamp).
Abbreviation request_at := (build_params category symbol interval start_timestamp).

(** The first call a run of the loop logs is the one for its cursor. *)
Lemma fetch_loop_first fuel w all_data current_end calls o w' calls' c :
  run_loop fuel w all_data current_end calls = (o, w', calls') ->
  calls' !! length calls = Some c ->
  c.1 = request_at current_end.
Proof.
  destruct fuel as [|fuel].
  - simpl. intros [= <- <- <-] Hc. apply lookup_lt_Some in Hc. exfalso. lia.
  - rewrite fetch_loop_unfold.
    destruct (_make_api_request _ _ _) as [resp w1]. cbv beta iota zeta.
    intros Hrun Hc.
    assert (calls' !! length calls = Some (request_at current_end, resp)) as Hentry.
    { destruct resp as [body|e].
      - destruct (rows_of body) as [|r data].
        + injection Hrun as <- <- <-. by rewrite lookup_app_r, Nat.sub_diag.
        + destruct (after_page _ _) as [[|c']|e].
          * injection Hrun as <- <- <-. by rewrite lookup_app_r, Nat.sub_diag.
          * apply fetch_loop_log in Hrun as [new ->].
            rewrite <- app_assoc. by rewrite lookup_app_r, Nat.sub_diag.
          * injection Hrun as <- <- <-. by rewrite lookup_app_r, Nat.sub_diag.
      - injection Hrun as <- <- <-. by rewrite lookup_app_r, Nat.sub_diag. }
    rewrite Hentry in Hc. by injection Hc as <-.
Qed.

(** Every logged call is a request built from the arguments of the run. *)
Lemma fetch_loop_requests fuel w all_data current_end o w' calls' i c :
  run_loop fuel w all_data current_end [] = (o, w', calls') ->
  calls' !! i = Some c ->
  exists cursor, c.1 = request_at cursor.
Proof.
  intros Hrun Hc.
  destruct (fetch_loop_at _ _ _ _ _ _ _ _ _ _ _ _ _ _ _ Hrun (Nat.le_0_l i) Hc)
    as (_ & _ & _ & cur1 & _ & Hp & _). eauto.
Qed.

(** A call is followed by another only after a full page that decoded
    and did not reach the start; the next request is then the one for the
    cursor one below that page's oldest timestamp. *)
Lemma fetch_loop_next fuel w all_data current_end o w' calls' i c c' :
  run_loop fuel w all_data current_end [] = (o, w', calls') ->
  calls' !! i = Some c ->
  calls' !! S i = Some c' ->
  exists body oldest,
    c.2 = Ok body /\
    oldest_timestamp (rows_of body) = Ok oldest /\
    start_reached start_timestamp oldest = false /\
    (MAX_LIMIT ≤ length (rows_of body))%nat /\
    c'.1 = request_at (oldest - 1).
Proof.
  intros Hrun Hc Hc'.
  destruct (fetch_loop_at _ _ _ _ _ _ _ _ _ _ _ _ _ _ _ Hrun (Nat.le_0_l i) Hc)
    as (fuel1 & w1 & acc1 & cur1 & w2 & _ & Hreq & Hrest).
  assert (length (take i calls') = i) as Hlen.
  { rewrite length_take. apply lookup_lt_Some in Hc. lia. }
  rewrite fetch_loop_unfold, Hreq in Hrest. cbv beta iota zeta in Hrest.
  assert (forall x : Call, (take i calls' ++ [x]) !! S i = None) as Hout.
  { intros x. apply lookup_ge_None. rewrite length_app, Hlen. simpl. lia. }
  destruct (c.2) as [body|e] eqn:Hresp.
  2:{ injection Hrest as _ _ Hcalls. rewrite <- Hcalls, Hout in Hc'. done. }
  destruct (rows_of body) as [|r data] eqn:Hrows.
  { injection Hrest as _ _ Hcalls. rewrite <- Hcalls, Hout in Hc'. done. }
  destruct (after_page start_timestamp (r :: data)) as [[|cur2]|e] eqn:Hafter.
  - injection Hrest as _ _ Hcalls. rewrite <- Hcalls, Hout in Hc'. done.
  - exists body. unfold after_page in Hafter.
    destruct (oldest_timestamp (r :: data)) as [oldest|e] eqn:Hold; [|done].
    simpl in Hafter. exists oldest.
    destruct (start_reached start_timestamp oldest) eqn:Hreached; [done|].
    case_bool_decide as Hshort; [done|]. injection Hafter as <-.
    rewrite Hrows. repeat split; [done|simpl in *; lia|].
    eapply fetch_loop_first; [exact Hrest|].
    by rewrite length_app, Hlen, Nat.add_1_r.
  - injection Hrest as _ _ Hcalls. rewrite <- Hcalls, Hout in Hc'. done.
Qed.

End Requests.

Lemma at_or_after_true (s : Z) (c : Candle) :
  at_or_after s c = true <-> exists t, timestamp c = Some t /\ s ≤ t.
Proof.
  unfold at_or_after. destruct (timestamp c) as [t|].
  - rewrite bool_decide_eq_true. split; [eauto|]. by intros (? & [= <-] & ?).
  - split; [discriminate|]. by intros (? & ? & _).
Qed.

Lemma assemble_elem (c : Candle) (df : list Candle) start_timestamp :
  c ∈ filter_and_sort df start_timestamp <->
  c ∈ df /\
  (forall s, start_timestamp = Some s -> s ≠ 0 ->
             exists t, timestamp c = Some t /\ s ≤ t).
Proof.
  unfold filter_and_sort. rewrite sort_values_elem.
  destruct start_timestamp as [s|]; simpl truthy_opt.
  2:{ split; [intros ?; split; [done|discriminate]|by intros [? _]]. }
  unfold truthy_int. destruct (Z.eqb_spec s 0) as [->|Hs]; simpl negb; cbv iota.
  - split; [intros ?; split; [done|by intros ? [= <-] ?]|by intros [? _]].
  - rewrite list_elem_of_filter, at_or_after_true. split.
    + intros [? ?]. split; [done|]. by intros ? [= <-] _.
    + intros [? Hafter]. split; [by apply Hafter|done].
Qed.

Lemma assemble_unfiltered (df : list Candle) start_timestamp :
  truthy_opt start_timestamp = false ->
  filter_and_sort df start_timestamp ≡ₚ df.
Proof.
  intros Hfalsy. unfold filter_and_sort.
  rewrite Hfalsy. apply merge_sort_Permutation.
Qed.

(** X1. The series [get_ohlcv] returns is assembled from exactly the rows
    of the pages it fetched: a candle is returned if and only if it is the
    candle of a fetched row and is not before a start that resolved to a
    timestamp other than zero; with no such start, every fetched row comes
    back exactly once. *)
Theorem series_is_what_was_fetched {World : Type}
    (http_get : World -> Params -> HttpReply Row * World)
    fuel w now_ms symbol interval start_date end_date category df w' calls st :
  get_ohlcv http_get fuel w now_ms symbol interval start_date end_date category
    = (Returned df, w', calls) ->
  resolve_start start_date = Ok st ->
  assemble (fetched calls) category st = Ok df /\
  (forall c, c ∈ df <->
     c ∈ row_to_candle <$> fetched calls /\
     (forall s, st = Some s -> s ≠ 0 -> exists t, timestamp c = Some t /\ s ≤ t)) /\
  (truthy_opt st = false ->
   df ≡ₚ row_to_candle <$> fetched calls /\ length df = length (fetched calls)).
Proof.
  intros Hrun Hstart.
  destruct (get_ohlcv_cases _ _ _ _ _ _ _ _ _ _ _ _ Hrun)
    as [(msg & [=] & _)|(st' & en & o' & _ & _ & _ & Hst & _ & Hloop & Hfin)].
  rewrite Hstart in Hst. injection Hst as <-.
  symmetry in Hfin. apply finish_Returned in Hfin as (all & -> & Hdf).
  apply fetch_loop_fetched in Hloop as (new & Hnew & ->).
  rewrite !app_nil_l in *. subst new.
  split; [done|]. apply assemble_Ok in Hdf as ->.
  split; [intros c; apply assemble_elem|].
  intros Hfalsy.
  pose proof (assemble_unfiltered (row_to_candle <$> fetched calls) st Hfalsy) as Hperm.
  split; [done|]. by rewrite Hperm, length_fmap.
Qed.

Lemma series_is_what_was_fetched_witness :
  let run := get_ohlcv script_get 5
               [Json (page_body [plain_row 1704067260000; plain_row 1704067200000;
                                 plain_row 1704067140000])]
               1704067400000 "BTCUSDT" "1" (Some "2024-01-01") None "spot" in
  run.1.1 = Returned [plain_candle 1704067200000; plain_candle 1704067260000] /\
  fetched run.2 = [plain_row 1704067260000; plain_row 1704067200000;
                   plain_row 1704067140000] /\
  assemble (fetched run.2) "spot" (Some 1704067200000)
  = Ok [plain_candle 1704067200000; plain_candle 1704067260000].
Proof.
  intros run. split; [reflexivity|]. split; [reflexivity|].
  apply (series_is_what_was_fetched script_get 5
           [Json (page_body [plain_row 1704067260000; plain_row 1704067200000;
                             plain_row 1704067140000])]
           1704067400000 "BTCUSDT" "1" (Some "2024-01-01") None "spot"
           [plain_candle 1704067200000; plain_candle 1704067260000]
           run.1.2 run.2 (Some 1704067200000) eq_refl eq_refl).
Defined.

(** X2. Every request of a run asks for the category, symbol and interval
    [get_ohlcv] was called with and for the maximum page size; its [end]
    is never zero; it carries a [start] only together with an [end], and
    then the start is the resolved one and not zero.  The first request's
    [end] is the resolved end, unless that is zero. *)
Theorem every_request_is_built_from_the_arguments {World : Type}
    (http_get : World -> Params -> HttpReply Row * World)
    fuel w now_ms symbol interval start_date end_date category
    o w' calls (i : nat) p r :
  get_ohlcv http_get fuel w now_ms symbol interval start_date end_date category
    = (o, w', calls) ->
  calls !! i = Some (p, r) ->
  p_category p = category /\ p_symbol p = symbol /\ p_interval p = interval /\
  p_limit p = MAX_LIMIT /\
  p_end p ≠ Some 0 /\
  (forall s, p_start p = Some s ->
     resolve_start start_date = Ok (Some s) /\ s ≠ 0 /\ is_Some (p_end p)) /\
  (i = 0%nat -> exists e, resolve_end end_date now_ms = Ok e /\
                          p_end p = if truthy_int e then Some e else None).
Proof.
  intros Hrun Hcall.
  destruct (get_ohlcv_cases _ _ _ _ _ _ _ _ _ _ _ _ Hrun)
    as [(msg & _ & _ & ->)|(st & en & o' & _ & _ & _ & Hst & Hen & Hloop & _)].
  { by rewrite lookup_nil in Hcall. }
  destruct (fetch_loop_requests _ _ _ _ _ _ _ _ _ _ _ _ _ _ Hloop Hcall) as [cur Hp].
  simpl in Hp. subst p. simpl.
  do 4 (split; [done|]). split; [|split].
  - unfold truthy_int. destruct (Z.eqb_spec cur 0); simpl; congruence.
  - intros s. destruct st as [s'|]; simpl; [|done].
    unfold truthy_int.
    destruct (Z.eqb_spec s' 0), (Z.eqb_spec cur 0); simpl; try done.
    intros [= <-]. by rewrite Hst.
  - intros ->. exists en. split; [done|].
    pose proof (fetch_loop_first _ _ _ _ _ _ _ _ _ _ _ _ _ _ Hloop Hcall) as Hfirst.
    simpl in Hfirst. by apply (f_equal p_end) in Hfirst.
Qed.

Lemma every_request_is_built_from_the_arguments_witness :
  let p := build_params "spot" "BTCUSDT" "1" (Some 1704067200000) 1704067400000 in
  p_category p = "spot" /\ p_symbol p = "BTCUSDT" /\ p_interval p = "1" /\
  p_limit p = MAX_LIMIT /\
  p_end p ≠ Some 0 /\
  (forall s, p_start p = Some s ->
     resolve_start (Some "2024-01-01") = Ok (Some s) /\ s ≠ 0 /\ is_Some (p_end p)) /\
  (0%nat = 0%nat -> exists e, resolve_end None 1704067400000 = Ok e /\
                              p_end p = if truthy_int e then Some e else None).
Proof.
  intros p.
  apply (every_request_is_built_from_the_arguments
           (history_get [1704067260000; 1704067200000]) 5 tt 1704067400000
           "BTCUSDT" "1" (Some "2024-01-01") None "spot"
           (Returned [plain_candle 1704067200000; plain_candle 1704067260000]) tt
           [(p, Ok (page_body [plain_row 1704067260000; plain_row 1704067200000]))]
           0%nat p
           (Ok (page_body [plain_row 1704067260000; plain_row 1704067200000])));
    reflexivity.
Defined.

(** X3. A call is followed by another call only when its page held at
    least [MAX_LIMIT] rows, its oldest timestamp decoded and lies after a
    non-zero resolved start; the next request then ends one millisecond
    below that oldest timestamp, and carries no [end] at all when that
    is zero. *)
Theorem a_further_call_follows_a_full_page {World : Type}
    (http_get : World -> Params -> HttpReply Row * World)
    fuel w now_ms symbol interval start_date end_date category
    o w' calls (i : nat) p r p' r' :
  get_ohlcv http_get fuel w now_ms symbol interval start_date end_date category
    = (o, w', calls) ->
  calls !! i = Some (p, r) ->
  calls !! S i = Some (p', r') ->
  exists body oldest,
    r = Ok body /\
    (MAX_LIMIT ≤ length (rows_of body))%nat /\
    oldest_timestamp (rows_of body) = Ok oldest /\
    p_end p' = (if truthy_int (oldest - 1) then Some (oldest - 1) else None) /\
    (forall s, resolve_start start_date = Ok (Some s) -> s ≠ 0 -> s < oldest).
Proof.
  intros Hrun Hcall Hnext.
  destruct (get_ohlcv_cases _ _ _ _ _ _ _ _ _ _ _ _ Hrun)
    as [(msg & _ & _ & ->)|(st & en & o' & _ & _ & _ & Hst & _ & Hloop & _)].
  { by rewrite lookup_nil in Hcall. }
  destruct (fetch_loop_next _ _ _ _ _ _ _ _ _ _ _ _ _ _ _ Hloop Hcall Hnext)
    as (body & oldest & Hr & Hold & Hstart & Hfull & Hp').
  simpl in Hr, Hp'. subst r p'. exists body, oldest.
  repeat split; [done..|].
  intros s Hs Hnz. rewrite Hs in Hst. injection Hst as <-.
  destruct (Z_lt_le_dec s oldest) as [|Hle]; [done|].
  assert (start_reached (Some s) oldest = true) as Hreached; [|congruence].
  apply start_reached_true. eauto.
Qed.

Lemma a_further_call_follows_a_full_page_witness :
  let page := descending_from 1000 1704067200000 60000 in
  let run := get_ohlcv script_get 5 [Json (page_body page)]
               1704127200000 "BTCUSDT" "1" None None "spot" in
  exists body oldest,
    (Ok (page_body page) : result (Body Row)) = Ok body /\
    (MAX_LIMIT ≤ length (rows_of body))%nat /\
    oldest_timestamp (rows_of body) = Ok oldest /\
    p_end (build_params "spot" "BTCUSDT" "1" None 1704067199999)
    = (if truthy_int (oldest - 1) then Some (oldest - 1) else None) /\
    (forall s, resolve_start None = Ok (Some s) -> s ≠ 0 -> s < oldest).
Proof.
  intros page run.
  apply (a_further_call_follows_a_full_page script_get 5 [Json (page_body page)]
           1704127200000 "BTCUSDT" "1" None None "spot"
           run.1.1 run.1.2 run.2 0%nat
           (build_params "spot" "BTCUSDT" "1" None 1704127200000)
           (Ok (page_body page))
           (build_params "spot" "BTCUSDT" "1" None 1704067199999)
           (Ok empty_body));
    vm_compute; reflexivity.
Defined.

(** ** A run against an honest provider *)












(** ** Dates *)

Lemma digit_char_cases (n : Z) :
  exists k, (k < 10)%nat /\ n mod 10 = Z.of_nat k /\
            digit_char n = ascii_of_N (Z.to_N (48 + Z.of_nat k)).
Proof.
  pose proof (Z.mod_pos_bound n 10 ltac:(lia)) as Hbound.
  exists (Z.to_nat (n mod 10)). unfold digit_char.
  rewrite Z2Nat.id by lia. repeat split; lia.
Qed.

Lemma digit_char_digit (n : Z) :
  Strptime.is_digit (digit_char n) = true /\
  Strptime.digit (digit_char n) = n mod 10 /\
  Strptime.is_char " " (digit_char n) = false.
Proof.
  destruct (digit_char_cases n) as (k & Hk & -> & ->).
  do 10 (destruct k as [|k]; [by repeat split|]). lia.
Qed.

Lemma dir_Y_four_digits (y : Z) (rest : string) :
  0 ≤ y ≤ 9999 ->
  Strptime.dir_Y (four_digits y +:+ rest) = Some (y, rest).
Proof.
  intros Hy. unfold four_digits, two_digits, append, Strptime.dir_Y.
  destruct (digit_char_digit (y / 1000)) as (-> & -> & _).
  destruct (digit_char_digit (y / 100)) as (-> & -> & _).
  destruct (digit_char_digit (y / 10)) as (-> & -> & _).
  destruct (digit_char_digit y) as (-> & -> & _).
  simpl andb. cbv iota. do 2 f_equal.
  Z.to_euclidean_division_equations. lia.
Qed.

Lemma dir_m_two_digits (m : Z) (rest : string) :
  1 ≤ m ≤ 12 ->
  Strptime.dir_m (two_digits m +:+ rest) = Some (m, rest).
Proof.
  intros Hm.
  assert (exists k, (k < 12)%nat /\ m = 1 + Z.of_nat k) as (k & Hk & ->).
  { exists (Z.to_nat (m - 1)). lia. }
  do 12 (destruct k as [|k]; [reflexivity|]). lia.
Qed.

Lemma dir_d_two_digits (d : Z) :
  1 ≤ d ≤ 31 ->
  Strptime.dir_d (two_digits d) = Some (d, EmptyString).
Proof.
  intros Hd.
  assert (exists k, (k < 31)%nat /\ d = 1 + Z.of_nat k) as (k & Hk & ->).
  { exists (Z.to_nat (d - 1)). lia. }
  do 31 (destruct k as [|k]; [reflexivity|]). lia.
Qed.

Lemma has_blank_app (s1 s2 : string) :
  Strptime.has_blank (s1 +:+ s2) = Strptime.has_blank s1 || Strptime.has_blank s2.
Proof.
  induction s1 as [|a s1 IH]; [done|].
  change (String a s1 +:+ s2) with (String a (s1 +:+ s2)).
  cbn [Strptime.has_blank]. by rewrite IH, orb_assoc.
Qed.

Lemma has_blank_two_digits (n : Z) : Strptime.has_blank (two_digits n) = false.
Proof.
  unfold two_digits. cbn [Strptime.has_blank].
  destruct (digit_char_digit (n / 10)) as (_ & _ & ->).
  by destruct (digit_char_digit n) as (_ & _ & ->).
Qed.

Lemma has_blank_strftime (y m d : Z) : Strptime.has_blank (strftime_Ymd y m d) = false.
Proof.
  unfold strftime_Ymd. rewrite !has_blank_app, !has_blank_two_digits.
  change (Strptime.has_blank "-") with false.
  unfold four_digits. cbn [Strptime.has_blank]. rewrite has_blank_two_digits.
  destruct (digit_char_digit (y / 1000)) as (_ & _ & ->).
  by destruct (digit_char_digit (y / 100)) as (_ & _ & ->).
Qed.

Lemma days_in_month_le (y m : Z) : Strptime.days_in_month y m ≤ 31.
Proof.
  unfold Strptime.days_in_month.
  destruct (m =? 2); [by destruct (Strptime.is_leap y)|].
  by destruct ((m =? 4) || (m =? 6) || (m =? 9) || (m =? 11)).
Qed.

Lemma match_date_strftime (y m d : Z) :
  0 ≤ y ≤ 9999 -> 1 ≤ m ≤ 12 -> 1 ≤ d ≤ 31 ->
  Strptime.match_date (strftime_Ymd y m d)
  = Some {| Strptime.f_year := y; Strptime.f_month := m; Strptime.f_day := d;
            Strptime.f_hour := 0; Strptime.f_minute := 0; Strptime.f_second := 0 |}.
Proof.
  intros Hy Hm Hd. unfold Strptime.match_date, strftime_Ymd.
  rewrite dir_Y_four_digits by done. cbn [mbind option_bind].
  change ("-" +:+ two_digits m +:+ "-" +:+ two_digits d)
    with (String "-" (two_digits m +:+ String "-" (two_digits d))).
  change (Strptime.lit "-" (String "-" ?s)) with (Some s). cbn [mbind option_bind].
  rewrite dir_m_two_digits by done. cbn [mbind option_bind].
  change (Strptime.lit "-" (String "-" ?s)) with (Some s). cbn [mbind option_bind].
  by rewrite dir_d_two_digits by done.
Qed.

(** X5. The date strings [analyze_price_movement] builds with
    [strftime('%Y-%m-%d')] are always accepted by
    [_parse_date_to_timestamp]: for every calendar date whose year has four
    digits the string parses to midnight UTC of that day, so as a start
    date it resolves to that timestamp and as an end date likewise. *)
Theorem strftime_dates_are_accepted (y m d now_ms : Z) :
  1000 ≤ y ≤ 9999 -> 1 ≤ m ≤ 12 -> 1 ≤ d ≤ Strptime.days_in_month y m ->
  let midnight := (Strptime.ymd2ord y m d - Strptime.ymd2ord 1970 1 1) * 86400000 in
  _parse_date_to_timestamp (strftime_Ymd y m d) = Ok midnight /\
  resolve_start (Some (strftime_Ymd y m d)) = Ok (Some midnight) /\
  resolve_end (Some (strftime_Ymd y m d)) now_ms = Ok midnight.
Proof.
  intros Hy Hm Hd midnight.
  pose proof (days_in_month_le y m) as Hle.
  assert (_parse_date_to_timestamp (strftime_Ymd y m d) = Ok midnight) as Hparse.
  { unfold _parse_date_to_timestamp.
    rewrite has_blank_strftime, match_date_strftime by lia.
    unfold Strptime.valid, Strptime.timestamp_ms. simpl.
    repeat (rewrite (proj2 (Z.leb_le _ _)) by lia). simpl.
    f_equal. unfold midnight. lia. }
  split; [done|].
  unfold resolve_start, resolve_end. rewrite Hparse.
  by unfold strftime_Ymd, four_digits.
Qed.

Lemma strftime_dates_are_accepted_witness :
  strftime_Ymd 2024 2 29 = "2024-02-29" /\
  _parse_date_to_timestamp (strftime_Ymd 2024 2 29) = Ok 1709164800000 /\
  resolve_start (Some (strftime_Ymd 2024 2 29)) = Ok (Some 1709164800000) /\
  resolve_end (Some (strftime_Ymd 2024 2 29)) 0 = Ok 1709164800000.
Proof.
  split; [reflexivity|].
  apply (strftime_dates_are_accepted 2024 2 29 0); vm_compute; by split.
Defined.

Lemma match_date_midnight (s : string) (f : Strptime.fields) :
  Strptime.match_date s = Some f ->
  Strptime.f_hour f = 0 /\ Strptime.f_minute f = 0 /\ Strptime.f_second f = 0.
Proof.
  unfold Strptime.match_date. intros Hmatch.
  repeat match type of Hmatch with
         | mbind _ ?x = Some _ =>
             let H := fresh in
             apply bind_Some in Hmatch as (? & H & Hmatch); clear H
         | context [let (_, _) := ?p in _] => destruct p
         end.
  by injection Hmatch as <-.
Qed.

(** X6. Every timestamp [_parse_date_to_timestamp] returns is a whole
    number of seconds, and a date given without a time of day is the
    midnight that begins it: a whole number of days from the epoch. *)
Theorem parsed_dates_are_whole_seconds (date_str : string) (t : Z) :
  _parse_date_to_timestamp date_str = Ok t ->
  t mod 1000 = 0 /\
  (Strptime.has_blank date_str = false -> t mod 86400000 = 0).
Proof.
  unfold _parse_date_to_timestamp.
  destruct (Strptime.has_blank date_str) eqn:Hblank.
  - destruct (Strptime.match_datetime date_str) as [f|]; [|discriminate].
    destruct (Strptime.valid f); [|discriminate]. intros [= <-].
    split; [|discriminate]. unfold Strptime.timestamp_ms. apply Z.mod_mul. lia.
  - destruct (Strptime.match_date date_str) as [f|] eqn:Hmatch; [|discriminate].
    destruct (Strptime.valid f); [|discriminate]. intros [= <-].
    apply match_date_midnight in Hmatch as (Hh & Hm & Hs).
    unfold Strptime.timestamp_ms. rewrite Hh, Hm, Hs.
    split; [apply Z.mod_mul; lia|]. intros _.
    replace ((_ * 86400 + 0 * 3600 + 0 * 60 + 0) * 1000)
      with ((Strptime.ymd2ord (Strptime.f_year f) (Strptime.f_month f) (Strptime.f_day f)
             - Strptime.ymd2ord 1970 1 1) * 86400000) by lia.
    apply Z.mod_mul. lia.
Qed.

Lemma parsed_dates_are_whole_seconds_witness :
  1704067200000 mod 1000 = 0 /\
  (Strptime.has_blank "2024-01-01" = false -> 1704067200000 mod 86400000 = 0).
Proof.
  apply (parsed_dates_are_whole_seconds "2024-01-01" 1704067200000). reflexivity.
Defined.

(** ** The tool [fetch_historical_ohlcv] *)

Lemma ts_le_refl (a : option Z) : ts_le a a.
Proof. destruct a; simpl; [lia|done]. Qed.

(** In a sorted frame the first line is the least and the last the
    greatest. *)
Lemma sorted_first_last (first : Candle) (rest : list Candle) (c : Candle) :
  StronglySorted candle_le (first :: rest) ->
  c ∈ first :: rest ->
  candle_le first c /\ candle_le c (default first (last (first :: rest))).
Proof.
  intros Hsorted Hc. split.
  - apply StronglySorted_cons in Hsorted as [Hall _].
    apply elem_of_cons in Hc as [->|Hc]; [apply ts_le_refl|].
    rewrite Forall_forall in Hall. by apply Hall.
  - destruct (last (first :: rest)) as [final|] eqn:Hlast; simpl.
    + apply last_Some in Hlast as [l' Hl']. rewrite Hl' in Hsorted, Hc.
      apply elem_of_app in Hc as [Hc|Hc].
      * eapply StronglySorted_app_1_elem_of; [done|done|left].
      * apply list_elem_of_singleton in Hc as ->. apply ts_le_refl.
    + by apply last_None in Hlast.
Qed.

Lemma get_ohlcv_sorted {World : Type}
    (http_get : World -> Params -> HttpReply Row * World)
    fuel w now_ms symbol interval start_date end_date category df w' calls :
  get_ohlcv http_get fuel w now_ms symbol interval start_date end_date category
    = (Returned df, w', calls) ->
  StronglySorted candle_le df.
Proof.
  intros Hrun.
  destruct (get_ohlcv_cases _ _ _ _ _ _ _ _ _ _ _ _ Hrun)
    as [(msg & [=] & _)|(st & en & o' & _ & _ & _ & _ & _ & _ & Hfin)].
  symmetry in Hfin. apply finish_Returned in Hfin as (all & _ & ->%assemble_Ok).
  apply assemble_sorted.
Qed.

(** X7. A successful reply of [fetch_historical_ohlcv] carries the series
    [get_ohlcv] returned, which is not empty; [count] is its length, every
    candle in it has a timestamp, and [first_timestamp] and
    [last_timestamp] are those of its first and last candle, the least and
    the greatest of the series. *)
Theorem successful_reply_spans_the_series {World : Type}
    (http_get : World -> Params -> HttpReply Row * World)
    fuel w now_ms symbol interval start_date end_date category
    data count sy iv cat first_timestamp last_timestamp w' calls :
  fetch_historical_ohlcv http_get fuel w now_ms symbol interval
    start_date end_date category
    = (Returned (OhlcvData data count sy iv cat first_timestamp last_timestamp),
       w', calls) ->
  get_ohlcv http_get fuel w now_ms symbol interval start_date end_date category
    = (Returned data, w', calls) /\
  count = length data /\ (0 < count)%nat /\
  sy = symbol /\ iv = interval /\ cat = category /\
  (exists c, head data = Some c /\ timestamp c = Some first_timestamp) /\
  (exists c, last data = Some c /\ timestamp c = Some last_timestamp) /\
  (forall c, c ∈ data ->
     exists t, timestamp c = Some t /\ first_timestamp ≤ t ≤ last_timestamp).
Proof.
  unfold fetch_historical_ohlcv.
  destruct (get_ohlcv _ _ _ _ _ _ _ _ _) as [[o w1] calls1] eqn:Hrun.
  intros Hreply.
  destruct o as [df|e|]; [|unfold ohlcv_error in Hreply; congruence|congruence].
  pose proof (get_ohlcv_sorted _ _ _ _ _ _ _ _ _ _ _ _ Hrun) as Hsorted.
  destruct df as [|first rest]; [simpl in Hreply; congruence|].
  unfold ohlcv_reply in Hreply.
  destruct (timestamp first) as [a|] eqn:Hfirst;
    [|simpl in Hreply; unfold ohlcv_error in Hreply; congruence].
  destruct (last (first :: rest)) as [final|] eqn:Hlast;
    [|by apply last_None in Hlast].
  simpl default in Hreply.
  destruct (timestamp final) as [b|] eqn:Hfinal;
    [|simpl in Hreply; unfold ohlcv_error in Hreply; congruence].
  simpl in Hreply. injection Hreply as <- <- <- <- <- <- <- <- <-.
  repeat split; [simpl; lia|by exists first|by exists final|].
  intros c Hc.
  destruct (sorted_first_last first rest c Hsorted Hc) as [Hlo Hhi].
  rewrite Hlast in Hhi. simpl in Hhi. unfold candle_le in Hlo, Hhi.
  rewrite Hfirst in Hlo. rewrite Hfinal in Hhi.
  destruct (timestamp c) as [t|]; simpl in Hlo, Hhi; [|done].
  exists t. split; [done|lia].
Qed.

Lemma successful_reply_spans_the_series_witness :
  let data := [plain_candle 1704067200000; plain_candle 1704067260000] in
  get_ohlcv (history_get [1704067260000; 1704067200000]) 1 tt 1704067400000
    "BTCUSDT" "1" None None "spot" = (Returned data, tt,
      [(build_params "spot" "BTCUSDT" "1" None 1704067400000,
        Ok (page_body [plain_row 1704067260000; plain_row 1704067200000]))]) /\
  2%nat = length data /\ (0 < 2)%nat /\
  "BTCUSDT" = "BTCUSDT" /\ "1" = "1" /\ "spot" = "spot" /\
  (exists c, head data = Some c /\ timestamp c = Some 1704067200000) /\
  (exists c, last data = Some c /\ timestamp c = Some 1704067260000) /\
  (forall c, c ∈ data ->
     exists t, timestamp c = Some t /\ 1704067200000 ≤ t ≤ 1704067260000).
Proof.
  intros data.
  apply (successful_reply_spans_the_series
           (history_get [1704067260000; 1704067200000]) 1 tt 1704067400000
           "BTCUSDT" "1" None None "spot").
  reflexivity.
Defined.

(** X8. [fetch_historical_ohlcv] turns a failed page into an error reply:
    when a call of the run raised [e], that call is the last one and the
    reply is the failure whose text is ["Error fetching OHLCV data: "]
    followed by the text of [e], with count zero and none of the pages
    fetched before. *)
Theorem failed_page_is_reported {World : Type}
    (http_get : World -> Params -> HttpReply Row * World)
    fuel w now_ms symbol interval start_date end_date category
    o w' calls (i : nat) p e :
  fetch_historical_ohlcv http_get fuel w now_ms symbol interval
    start_date end_date category = (o, w', calls) ->
  calls !! i = Some (p, Raise e) ->
  o = Returned (OhlcvError ("Error fetching OHLCV data: " +:+ str e) symbol interval 0) /\
  length calls = S i.
Proof.
  unfold fetch_historical_ohlcv.
  destruct (get_ohlcv _ _ _ _ _ _ _ _ _) as [[o1 w1] calls1] eqn:Hrun.
  intros [= <- <- <-] Hcall.
  destruct (get_ohlcv_cases _ _ _ _ _ _ _ _ _ _ _ _ Hrun)
    as [(msg & _ & _ & ->)|(st & en & o' & _ & _ & _ & _ & _ & Hloop & ->)].
  { by rewrite lookup_nil in Hcall. }
  edestruct @fetch_loop_raise as [-> Hlen]; [exact Hloop|exact Hcall|].
  by split.
Qed.

Lemma failed_page_is_reported_witness :
  let run := fetch_historical_ohlcv script_get 5
               [Json (page_body (descending_from 1000 1704067200000 60000));
                Failed (RequestException "timed out")]
               1704127200000 "BTCUSDT" "1" None None "spot" in
  run.1.1 = Returned (OhlcvError "Error fetching OHLCV data: timed out" "BTCUSDT" "1" 0) /\
  length run.2 = 2%nat.
Proof.
  intros run.
  apply (failed_page_is_reported script_get 5
           [Json (page_body (descending_from 1000 1704067200000 60000));
            Failed (RequestException "timed out")]
           1704127200000 "BTCUSDT" "1" None None "spot"
           run.1.1 run.1.2 run.2 1%nat
           (build_params "spot" "BTCUSDT" "1" None 1704067199999)
           (RequestException "timed out")); vm_compute; reflexivity.
Defined.

(** X9. Without a start date that resolves to a timestamp other than
    zero, one fetched row whose timestamp is not a number makes
    [fetch_historical_ohlcv] fail although [get_ohlcv] returned a series:
    the reply is the failure ["Error fetching OHLCV data: cannot convert
    float NaN to integer"]. *)
Theorem undecodable_timestamp_fails_the_reply {World : Type}
    (http_get : World -> Params -> HttpReply Row * World)
    fuel w now_ms symbol interval start_date end_date category
    df w' calls st r :
  get_ohlcv http_get fuel w now_ms symbol interval start_date end_date category
    = (Returned df, w', calls) ->
  resolve_start start_date = Ok st ->
  truthy_opt st = false ->
  r ∈ fetched calls ->
  row_ts r = CBad ->
  fetch_historical_ohlcv http_get fuel w now_ms symbol interval
    start_date end_date category
  = (Returned (OhlcvError
       "Error fetching OHLCV data: cannot convert float NaN to integer"
       symbol interval 0), w', calls).
Proof.
  intros Hrun Hst Hfalsy Hr Hbad.
  pose proof (get_ohlcv_sorted _ _ _ _ _ _ _ _ _ _ _ _ Hrun) as Hsorted.
  unfold fetch_historical_ohlcv. rewrite Hrun.
  destruct (get_ohlcv_cases _ _ _ _ _ _ _ _ _ _ _ _ Hrun)
    as [(msg & [=] & _)|(st' & en & o' & _ & _ & _ & Hst' & _ & Hloop & Hfin)].
  rewrite Hst in Hst'. injection Hst' as <-.
  symmetry in Hfin. apply finish_Returned in Hfin as (all & -> & Hdf%assemble_Ok).
  apply fetch_loop_fetched in Hloop as (new & Hnew & ->).
  rewrite !app_nil_l in *. subst new.
  assert (row_to_candle r ∈ df) as Hc.
  { rewrite Hdf, (assemble_unfiltered _ st Hfalsy).
    by apply list_elem_of_fmap_2. }
  clear Hdf. destruct df as [|first rest]; [by apply elem_of_nil in Hc|].
  destruct (sorted_first_last first rest _ Hsorted Hc) as [_ Hhi].
  unfold candle_le, row_to_candle in Hhi. simpl in Hhi. rewrite Hbad in Hhi.
  unfold ohlcv_reply.
  destruct (timestamp (default first (last (first :: rest)))) as [b|] eqn:Hlast;
    [done|].
  by destruct (timestamp first).
Qed.

Lemma undecodable_timestamp_fails_the_reply_witness :
  let bad := {| row_ts := CBad; row_ohlcv := [] |} in
  let page := [plain_row 1704067260000; bad; plain_row 1704067200000] in
  get_ohlcv script_get 5 [Json (page_body page)] 1704067400000
    "BTCUSDT" "1" None None "spot"
  = (Returned [plain_candle 1704067200000; plain_candle 1704067260000;
               row_to_candle bad], [],
     [(build_params "spot" "BTCUSDT" "1" None 1704067400000, Ok (page_body page))]) /\
  fetch_historical_ohlcv script_get 5 [Json (page_body page)] 1704067400000
    "BTCUSDT" "1" None None "spot"
  = (Returned (OhlcvError
       "Error fetching OHLCV data: cannot convert float NaN to integer"
       "BTCUSDT" "1" 0), [],
     [(build_params "spot" "BTCUSDT" "1" None 1704067400000, Ok (page_body page))]).
Proof.
  intros bad page. split; [reflexivity|].
  apply (undecodable_timestamp_fails_the_reply script_get 5 [Json (page_body page)]
           1704067400000 "BTCUSDT" "1" None None "spot"
           [plain_candle 1704067200000; plain_candle 1704067260000; row_to_candle bad]
           [] _ None bad); [reflexivity|reflexivity|reflexivity| |reflexivity].
  right. left.
Defined.

(** ** The tool [get_trading_symbols] *)

(** The loop with its [break] is the first ten of the popular symbols. *)
Lemma popular_loop_spec (symbols popular_symbols : list string) :
  (length popular_symbols < 10)%nat ->
  popular_loop symbols popular_symbols
  = take 10 (popular_symbols ++ filter (fun s => is_popular s = true) symbols).
Proof.
  revert popular_symbols.
  induction symbols as [|symbol rest IH]; intros popular_symbols Hlen.
  - simpl. rewrite filter_nil, app_nil_r. symmetry. apply take_ge. lia.
  - simpl popular_loop. destruct (is_popular symbol) eqn:Hpopular.
    + rewrite filter_cons_True by done.
      replace (popular_symbols ++ symbol :: filter (fun s => is_popular s = true) rest)
        with ((popular_symbols ++ [symbol]) ++ filter (fun s => is_popular s = true) rest)
        by (by rewrite <- app_assoc).
      cbv zeta. case_bool_decide as Hfull.
      * symmetry. apply take_app_length'. rewrite length_app in *. simpl in *. lia.
      * apply IH. lia.
    + rewrite filter_cons_False by (by rewrite Hpopular). by apply IH.
Qed.

Lemma get_available_symbols_sorted {World : Type}
    (http_get_instruments : World -> string -> HttpReply Instrument * World)
    (w : World) (category : string) r w' :
  get_available_symbols http_get_instruments w category = (r, w') ->
  exists symbols, r = Ok symbols /\ StronglySorted String.le symbols /\
                  w' = (http_get_instruments w category).2.
Proof.
  unfold get_available_symbols, try_available_symbols.
  destruct (http_get_instruments w category) as [[e|data] w1]; simpl.
  { intros [= <- <-]. exists []. repeat split. constructor. }
  unfold check_body. case_bool_decide as Hcode; simpl.
  - rewrite symbols_of_mapM.
    destruct (mapM inst_symbol (rows_of data)) as [provided|]; simpl.
    + intros [= <- <-]. exists (sorted provided). repeat split.
      by destruct (sorted_spec provided).
    + intros [= <- <-]. exists []. repeat split. constructor.
  - intros [= <- <-]. exists []. repeat split. constructor.
Qed.

(** X10. A successful reply of [get_trading_symbols] lists the symbols
    [get_available_symbols] returned, in ascending order and not empty,
    with their number as [count] and the first ten as [sample_symbols];
    [popular_pairs] holds, in the order of the listing, the first ten
    symbols among its first fifty that contain one of the patterns USDT,
    USD, BTC and ETH. *)
Theorem successful_symbols_reply {World : Type}
    (http_get_instruments : World -> string -> HttpReply Instrument * World)
    (w : World) (category : string)
    symbols count cat sample_symbols popular_pairs w' :
  get_trading_symbols http_get_instruments w category
    = (SymbolsData symbols count cat sample_symbols popular_pairs, w') ->
  get_available_symbols http_get_instruments w category = (Ok symbols, w') /\
  symbols ≠ [] /\ StronglySorted String.le symbols /\
  count = length symbols /\ cat = category /\
  sample_symbols = take 10 symbols /\
  popular_pairs = take 10 (filter (fun s => is_popular s = true) (take 50 symbols)) /\
  (length popular_pairs ≤ 10)%nat /\
  popular_pairs `sublist_of` symbols.
Proof.
  unfold get_trading_symbols.
  destruct (get_available_symbols _ _ _) as [r w1] eqn:Hlookup.
  destruct (get_available_symbols_sorted _ _ _ _ _ Hlookup) as (l & -> & Hsorted & _).
  assert (symbols_reply l category
          = match l with
            | [] => symbols_reply [] category
            | _ :: _ => SymbolsData l (length l) category (take 10 l)
                          (take 10 (filter (fun s => is_popular s = true) (take 50 l)))
            end) as ->.
  { destruct l as [|s l]; [done|]. unfold symbols_reply.
    by rewrite popular_loop_spec by (simpl; lia). }
  assert (take 10 (filter (fun s => is_popular s = true) (take 50 l)) `sublist_of` l)
    as Hsub.
  { etrans; [apply sublist_take|]. etrans; [apply sublist_filter|]. apply sublist_take. }
  assert (length (take 10 (filter (fun s => is_popular s = true) (take 50 l))) ≤ 10)%nat
    as Hlen by (rewrite length_take; lia).
  destruct l as [|s l]; [discriminate|].
  intros Hreply. injection Hreply as <- <- <- <- <- <-.
  repeat split; [done|done|exact Hlen|exact Hsub].
Qed.

Lemma successful_symbols_reply_witness :
  let listing := [ {| inst_symbol := Some "ETHUSDT" |};
                   {| inst_symbol := Some "AAVEEUR" |};
                   {| inst_symbol := Some "BTCUSDT" |} ] in
  get_available_symbols script_get [Json (page_body listing)] "spot"
    = (Ok ["AAVEEUR"; "BTCUSDT"; "ETHUSDT"], []) /\
  ["AAVEEUR"; "BTCUSDT"; "ETHUSDT"] ≠ [] /\
  StronglySorted String.le ["AAVEEUR"; "BTCUSDT"; "ETHUSDT"] /\
  3%nat = length ["AAVEEUR"; "BTCUSDT"; "ETHUSDT"] /\ "spot" = "spot" /\
  ["AAVEEUR"; "BTCUSDT"; "ETHUSDT"] = take 10 ["AAVEEUR"; "BTCUSDT"; "ETHUSDT"] /\
  ["BTCUSDT"; "ETHUSDT"]
  = take 10 (filter (fun s => is_popular s = true)
               (take 50 ["AAVEEUR"; "BTCUSDT"; "ETHUSDT"])) /\
  (length ["BTCUSDT"; "ETHUSDT"] ≤ 10)%nat /\
  ["BTCUSDT"; "ETHUSDT"] `sublist_of` ["AAVEEUR"; "BTCUSDT"; "ETHUSDT"].
Proof.
  intros listing.
  apply (successful_symbols_reply script_get [Json (page_body listing)] "spot").
  reflexivity.
Defined.

(** X11. [get_trading_symbols] reports every failed lookup as an empty
    category: whenever the reply is a failure its text is ["No symbols
    found for category '<category>' or invalid category"] with count zero,
    and that is the reply when the transport fails, when the status code
    is not zero, when an instrument has no symbol and when the listing is
    empty.  The text ["Error fetching symbols: ..."] is never produced. *)
Theorem failed_lookup_reads_as_no_symbols {World : Type}
    (http_get_instruments : World -> string -> HttpReply Instrument * World)
    (w : World) (category : string) reply w' :
  get_trading_symbols http_get_instruments w category = (reply, w') ->
  (forall error cat count,
     reply = SymbolsError error cat count ->
     error = "No symbols found for category '" +:+ category
             +:+ "' or invalid category" /\
     cat = category /\ count = 0%nat) /\
  ((exists e, (http_get_instruments w category).1 = Failed e) \/
   (exists data, (http_get_instruments w category).1 = Json data /\
      (retCode data ≠ Some 0 \/ mapM inst_symbol (rows_of data) = None \/
       rows_of data = [])) ->
   reply = SymbolsError ("No symbols found for category '" +:+ category
                         +:+ "' or invalid category") category 0).
Proof.
  unfold get_trading_symbols, get_available_symbols, try_available_symbols.
  destruct (http_get_instruments w category) as [[e|data] w1]; simpl.
  { intros [= <- <-]. split; [by intros ? ? ? [= <- <- <-]|done]. }
  unfold check_body. case_bool_decide as Hcode; simpl.
  - rewrite symbols_of_mapM.
    destruct (mapM inst_symbol (rows_of data)) as [provided|] eqn:Hsymbols; simpl.
    + intros [= <- <-]. unfold symbols_reply.
      destruct (sorted provided) as [|s l] eqn:Hsorted.
      { split; [by intros ? ? ? [= <- <- <-]|done]. }
      split; [discriminate|].
      intros [[e [=]]|(data' & [= <-] & [Hne|[Hnone|Hnil]])]; [done|congruence|].
      rewrite Hnil in Hsymbols. injection Hsymbols as <-. discriminate Hsorted.
    + intros [= <- <-]. split; [by intros ? ? ? [= <- <- <-]|done].
  - intros [= <- <-]. split; [by intros ? ? ? [= <- <- <-]|done].
Qed.

Lemma failed_lookup_reads_as_no_symbols_witness :
  get_trading_symbols script_get [Failed (RequestException "timed out")] "spot"
  = (SymbolsError "No symbols found for category 'spot' or invalid category" "spot" 0,
     []) /\
  (forall error cat count,
     SymbolsError "No symbols found for category 'spot' or invalid category" "spot" 0
     = SymbolsError error cat count ->
     error = "No symbols found for category '" +:+ "spot" +:+ "' or invalid category" /\
     cat = "spot" /\ count = 0%nat).
Proof.
  split; [reflexivity|].
  apply (failed_lookup_reads_as_no_symbols script_get
           [Failed (RequestException "timed out")] "spot" _ []).
  reflexivity.
Defined.

(** ** How a run ends *)

Lemma fetch_loop_last {World : Type}
    (http_get : World -> Params -> HttpReply Row * World)
    category symbol interval start_timestamp fuel :
  forall w all_data current_end calls all w' calls',
    fetch_loop http_get category symbol interval start_timestamp
      fuel w all_data current_end calls = (Returned all, w', calls') ->
    exists p body,
      last calls' = Some (p, Ok body) /\
      (rows_of body = [] \/ after_page start_timestamp (rows_of body) = Ok Break).
Proof.
  induction fuel as [|fuel IH]; intros w all_data current_end calls all w' calls';
    [discriminate|].
  rewrite fetch_loop_unfold.
  destruct (_make_api_request _ _ _) as [[body|e] w1]; cbv beta iota zeta;
    [|discriminate].
  destruct (rows_of body) as [|r data] eqn:Hrows.
  { intros [= <- <- <-]. eexists _, body. rewrite last_snoc. split; [done|]. by left. }
  destruct (after_page start_timestamp (r :: data)) as [[|next]|e] eqn:Hafter;
    [| |discriminate].
  - intros [= <- <- <-]. eexists _, body. rewrite last_snoc. split; [done|].
    right. by rewrite Hrows.
  - apply IH.
Qed.

(** X12. [get_ohlcv] returns a series only when the data ran out or the
    start was reached: the last call of a returned run succeeded, and its
    page either held fewer rows than [MAX_LIMIT] (none, possibly) or its
    oldest timestamp is at or before a start that resolved to a timestamp
    other than zero.  No other rule, such as a cap on the number of pages,
    ends a run. *)
Theorem a_returned_run_saw_the_end {World : Type}
    (http_get : World -> Params -> HttpReply Row * World)
    fuel w now_ms symbol interval start_date end_date category df w' calls :
  get_ohlcv http_get fuel w now_ms symbol interval start_date end_date category
    = (Returned df, w', calls) ->
  exists p body,
    last calls = Some (p, Ok body) /\
    ((length (rows_of body) < MAX_LIMIT)%nat \/
     exists s oldest,
       resolve_start start_date = Ok (Some s) /\ s ≠ 0 /\
       oldest_timestamp (rows_of body) = Ok oldest /\ oldest ≤ s).
Proof.
  intros Hrun.
  destruct (get_ohlcv_cases _ _ _ _ _ _ _ _ _ _ _ _ Hrun)
    as [(msg & [=] & _)|(st & en & o' & _ & _ & _ & Hst & _ & Hloop & Hfin)].
  symmetry in Hfin. apply finish_Returned in Hfin as (all & -> & _).
  apply fetch_loop_last in Hloop as (p & body & Hlast & Hend).
  exists p, body. split; [done|].
  destruct Hend as [->|Hbreak]; [left; unfold MAX_LIMIT; simpl; lia|].
  destruct (after_page_Ok _ _ _ Hbreak) as (oldest & Hold & _).
  rewrite (after_page_spec _ _ _ Hold) in Hbreak.
  destruct (start_reached st oldest) eqn:Hstart.
  - right. apply start_reached_true in Hstart as (s & -> & Hs & Hle).
    by exists s, oldest.
  - left. by case_bool_decide.
Qed.

Lemma a_returned_run_saw_the_end_witness :
  let page := descending_from 1000 1704067200000 60000 in
  let run := get_ohlcv script_get 5 [Json (page_body page)]
               1704127200000 "BTCUSDT" "1" None None "spot" in
  length run.2 = 2%nat /\
  exists p body,
    last run.2 = Some (p, Ok body) /\
    ((length (rows_of body) < MAX_LIMIT)%nat \/
     exists s oldest,
       resolve_start None = Ok (Some s) /\ s ≠ 0 /\
       oldest_timestamp (rows_of body) = Ok oldest /\ oldest ≤ s).
Proof.
  intros page run. split; [reflexivity|].
  apply (a_returned_run_saw_the_end script_get 5 [Json (page_body page)]
           1704127200000 "BTCUSDT" "1" None None "spot"
           (plain_candle <$> reverse ((fun r => default 0 (row_time r)) <$> page))
           run.1.2 run.2).
  vm_compute. reflexivity.
Defined.

(** ** The reply for an empty series *)

(** X13. The reply ["No data available for the specified parameters"] of
    [fetch_historical_ohlcv] means that [get_ohlcv] returned an empty
    series without raising: every row the run fetched lies before a start
    that resolved to a timestamp other than zero, or has no readable
    timestamp. *)
Theorem no_data_reply_means_empty_series {World : Type}
    (http_get : World -> Params -> HttpReply Row * World)
    fuel w now_ms symbol interval start_date end_date category
    sy iv count w' calls :
  fetch_historical_ohlcv http_get fuel w now_ms symbol interval
    start_date end_date category
    = (Returned (OhlcvError "No data available for the specified parameters"
                   sy iv count), w', calls) ->
  get_ohlcv http_get fuel w now_ms symbol interval start_date end_date category
    = (Returned [], w', calls) /\
  sy = symbol /\ iv = interval /\ count = 0%nat /\
  (forall r, r ∈ fetched calls ->
     exists s, resolve_start start_date = Ok (Some s) /\ s ≠ 0 /\
               (forall t, row_time r = Some t -> t < s)).
Proof.
  unfold fetch_historical_ohlcv.
  destruct (get_ohlcv _ _ _ _ _ _ _ _ _) as [[o w1] calls1] eqn:Hrun.
  intros Hreply.
  assert (o = Returned [] /\ sy = symbol /\ iv = interval /\ count = 0%nat /\
          w1 = w' /\ calls1 = calls) as (-> & -> & -> & -> & -> & ->).
  { destruct o as [[|first rest]|e|]; [| | |discriminate].
    - simpl in Hreply. by injection Hreply as <- <- <- <- <-.
    - unfold ohlcv_reply in Hreply.
      destruct (int_of_timestamp (timestamp first)); simpl in Hreply;
        [|unfold ohlcv_error, append in Hreply; discriminate].
      destruct (int_of_timestamp _); simpl in Hreply;
        [discriminate|unfold ohlcv_error, append in Hreply; discriminate].
    - unfold ohlcv_error, append in Hreply. discriminate. }
  split; [done|]. do 3 (split; [done|]).
  intros r Hr.
  destruct (get_ohlcv_cases _ _ _ _ _ _ _ _ _ _ _ _ Hrun)
    as [(msg & [=] & _)|(st & en & o' & _ & _ & _ & Hst & _ & Hloop & Hfin)].
  symmetry in Hfin. apply finish_Returned in Hfin as (all & -> & Hdf%assemble_Ok).
  apply fetch_loop_fetched in Hloop as (new & Hnew & ->).
  rewrite !app_nil_l in *. subst new.
  pose proof (assemble_elem (row_to_candle r) (row_to_candle <$> fetched calls) st)
    as Helem.
  rewrite <- Hdf in Helem.
  assert (~ (forall s, st = Some s -> s ≠ 0 ->
                       exists t, timestamp (row_to_candle r) = Some t /\ s ≤ t))
    as Hnot.
  { intros Hall. eapply elem_of_nil, Helem. split; [|done].
    by apply list_elem_of_fmap_2. }
  destruct st as [s|]; [|exfalso; apply Hnot; discriminate].
  destruct (decide (s = 0)) as [->|Hs].
  { exfalso. apply Hnot. by intros ? [= <-] ?. }
  exists s. repeat split; [done|done|].
  intros t Ht. destruct (Z_lt_le_dec t s) as [|Hle]; [done|].
  exfalso. apply Hnot. intros ? [= <-] _. by exists t.
Qed.

Lemma no_data_reply_means_empty_series_witness :
  let page := [plain_row 1704067260000; plain_row 1704067200000] in
  let calls := [(build_params "spot" "BTCUSDT" "1" (Some 1704153600000) 1704200000000,
                 Ok (page_body page))] in
  get_ohlcv script_get 5 [Json (page_body page)] 1704200000000
    "BTCUSDT" "1" (Some "2024-01-02") None "spot" = (Returned [], [], calls) /\
  "BTCUSDT" = "BTCUSDT" /\ "1" = "1" /\ 0%nat = 0%nat /\
  (forall r, r ∈ fetched calls ->
     exists s, resolve_start (Some "2024-01-02") = Ok (Some s) /\ s ≠ 0 /\
               (forall t, row_time r = Some t -> t < s)).
Proof.
  intros page calls.
  apply (no_data_reply_means_empty_series script_get 5 [Json (page_body page)]
           1704200000000 "BTCUSDT" "1" (Some "2024-01-02") None "spot").
  reflexivity.
Defined.

(** ** The tool [get_market_overview] *)

Lemma overview_loop_spec {World Quote : Type}
    (http_get : World -> Params -> HttpReply Row * World)
    (quote_of : list Candle -> Quote) (now : nat -> Z)
    fuel category interval (symbols : list string) :
  forall w i overview_data successful_fetches calls overview successful w' calls',
    overview_loop http_get quote_of now fuel w i symbols category interval
      overview_data successful_fetches calls
    = (Returned (overview, successful), w', calls') ->
    exists new,
      overview = overview_data ++ new /\
      entry_symbol <$> new = symbols /\
      successful
      = (successful_fetches + length (filter (fun e => is_quoted e = true) new))%nat.
Proof.
  induction symbols as [|symbol rest IH];
    intros w i overview_data successful_fetches calls overview successful w' calls'.
  - simpl. intros [= <- <- <- <-]. exists []. rewrite app_nil_r. simpl.
    repeat split. lia.
  - simpl overview_loop.
    destruct (get_ohlcv _ _ _ _ _ _ _ _ _) as [[o w1] new1].
    destruct o as [df|e|]; [| |discriminate].
    + destruct (negb (bool_decide (df = [])) && bool_decide (2 ≤ length df)%nat).
      * intros Hrun. apply IH in Hrun as (new & -> & <- & ->).
        exists (Quoted symbol (quote_of df) :: new).
        rewrite <- app_assoc. repeat split.
        rewrite filter_cons, decide_True by done. simpl. lia.
      * intros Hrun. apply IH in Hrun as (new & -> & <- & ->).
        exists (Unquoted symbol "Insufficient data" :: new).
        rewrite <- app_assoc. by repeat split.
    + intros Hrun. apply IH in Hrun as (new & -> & <- & ->).
      exists (Unquoted symbol (str e) :: new).
      rewrite <- app_assoc. by repeat split.
Qed.

(** X14. A reply of [get_market_overview] has exactly one entry for each
    symbol asked (the eight default symbols when none are given), in the
    order asked, whether its fetch succeeded or not: [total_symbols] is
    their number, [successful_fetches] the number of quoted entries, and
    [success] holds exactly when at least one symbol was quoted. *)
Theorem overview_has_one_entry_per_symbol {World Quote : Type}
    (http_get : World -> Params -> HttpReply Row * World)
    (quote_of : list Candle -> Quote) (now : nat -> Z)
    fuel w symbols category interval reply w' calls :
  get_market_overview http_get quote_of now fuel w symbols category interval
    = (Returned reply, w', calls) ->
  entry_symbol <$> ov_overview reply = default default_symbols symbols /\
  ov_total_symbols reply = length (ov_overview reply) /\
  ov_successful_fetches reply
  = length (filter (fun e => is_quoted e = true) (ov_overview reply)) /\
  (ov_successful_fetches reply ≤ ov_total_symbols reply)%nat /\
  (ov_success reply = true <->
   exists entry, entry ∈ ov_overview reply /\ is_quoted entry = true) /\
  ov_interval reply = interval /\ ov_category reply = category.
Proof.
  unfold get_market_overview.
  destruct (overview_loop _ _ _ _ _ _ _ _ _ _ _ _) as [[o w1] calls1] eqn:Hloop.
  destruct o as [[overview successful]|e|]; [|discriminate..].
  intros [= <- <- <-]. simpl.
  apply overview_loop_spec in Hloop as (new & -> & Hsymbols & ->).
  rewrite app_nil_l. simpl.
  assert (length new = length (default default_symbols symbols)) as Hlen.
  { by rewrite <- Hsymbols, length_fmap. }
  repeat split; try done.
  - rewrite <- Hlen. apply length_filter.
  - rewrite bool_decide_eq_true. intros Hpos.
    destruct (filter (fun e => is_quoted e = true) new) as [|entry l] eqn:Hfilter;
      [simpl in Hpos; lia|].
    exists entry.
    assert (entry ∈ filter (fun e => is_quoted e = true) new) as Hentry
      by (rewrite Hfilter; left).
    apply list_elem_of_filter in Hentry as [? ?]. by split.
  - intros (entry & Hin & Hquoted). apply bool_decide_eq_true.
    assert (entry ∈ filter (fun e => is_quoted e = true) new) as Hentry.
    { by apply list_elem_of_filter. }
    destruct (filter _ new); [by apply elem_of_nil in Hentry|simpl; lia].
Qed.

Lemma overview_has_one_entry_per_symbol_witness :
  let run := get_market_overview script_get (fun df => length df) (fun _ => 1704067400000)
               5 [Json (page_body [plain_row 1704067260000; plain_row 1704067200000]);
                  Failed (RequestException "timed out")]
               (Some ["BTCUSDT"; "ETHUSDT"; "SOLUSDT"]) "spot" "1" in
  run.1.1 = Returned {| ov_success := true;
                        ov_overview := [Quoted "BTCUSDT" 2%nat;
                                        Unquoted "ETHUSDT" "timed out";
                                        Unquoted "SOLUSDT" "Insufficient data"];
                        ov_total_symbols := 3;
                        ov_successful_fetches := 1;
                        ov_interval := "1";
                        ov_category := "spot" |} /\
  entry_symbol <$> [Quoted "BTCUSDT" 2%nat; Unquoted "ETHUSDT" "timed out";
                    Unquoted "SOLUSDT" "Insufficient data"]
  = ["BTCUSDT"; "ETHUSDT"; "SOLUSDT"].
Proof.
  intros run. split; [reflexivity|].
  destruct (overview_has_one_entry_per_symbol script_get (fun df => length df)
              (fun _ => 1704067400000) 5
              [Json (page_body [plain_row 1704067260000; plain_row 1704067200000]);
               Failed (RequestException "timed out")]
              (Some ["BTCUSDT"; "ETHUSDT"; "SOLUSDT"]) "spot" "1"
              {| ov_success := true;
                 ov_overview := [Quoted "BTCUSDT" 2%nat;
                                 Unquoted "ETHUSDT" "timed out";
                                 Unquoted "SOLUSDT" "Insufficient data"];
                 ov_total_symbols := 3;
                 ov_successful_fetches := 1;
                 ov_interval := "1";
                 ov_category := "spot" |}
              run.1.2 run.2 eq_refl) as [Hsymbols _].
  exact Hsymbols.
Defined.

Lemma get_ohlcv_invalid_category {World : Type}
    (http_get : World -> Params -> HttpReply Row * World)
    fuel w now_ms symbol interval start_date end_date category :
  symbol ≠ "" -> interval ≠ "" -> category ∉ valid_categories ->
  get_ohlcv http_get fuel w now_ms symbol interval start_date end_date category
  = (Raised (ValueError
       "Category must be one of ['spot', 'linear', 'inverse', 'option']"), w, []).
Proof.
  intros Hsymbol Hinterval Hcategory. unfold get_ohlcv.
  rewrite (bool_decide_eq_false_2 _ Hsymbol), (bool_decide_eq_false_2 _ Hinterval).
  by rewrite (bool_decide_eq_true_2 _ Hcategory).
Qed.

(** X15. An invalid category does not fail [get_market_overview] as a
    whole: for symbols and an interval that are not empty it makes no
    request and returns, whatever the fuel, a reply with [success] false,
    no successful fetch and, for every symbol, an entry whose error is
    the message of [get_ohlcv]'s validation. *)
Theorem invalid_category_gives_an_error_per_symbol {World Quote : Type}
    (http_get : World -> Params -> HttpReply Row * World)
    (quote_of : list Candle -> Quote) (now : nat -> Z)
    fuel w (symbols : list string) category interval :
  Forall (fun symbol => symbol ≠ "") symbols ->
  interval ≠ "" ->
  category ∉ valid_categories ->
  get_market_overview http_get quote_of now fuel w (Some symbols) category interval
  = (Returned
       {| ov_success := false;
          ov_overview :=
            (fun symbol =>
               Unquoted symbol
                 "Category must be one of ['spot', 'linear', 'inverse', 'option']")
            <$> symbols;
          ov_total_symbols := length symbols;
          ov_successful_fetches := 0;
          ov_interval := interval;
          ov_category := category |}, w, []).
Proof.
  intros Hsymbols Hinterval Hcategory. unfold get_market_overview. simpl default.
  assert (forall i overview_data,
            overview_loop http_get quote_of now fuel w i symbols category interval
              overview_data 0 []
            = (Returned
                 (overview_data ++
                  ((fun symbol =>
                      Unquoted symbol
                        "Category must be one of ['spot', 'linear', 'inverse', 'option']")
                   <$> symbols), 0%nat), w, [])) as ->.
  { induction Hsymbols as [|symbol rest Hsymbol _ IH]; intros i overview_data.
    - simpl. by rewrite app_nil_r.
    - simpl overview_loop.
      rewrite (get_ohlcv_invalid_category http_get fuel w (now i) symbol interval
                 None None category Hsymbol Hinterval Hcategory).
      simpl str. rewrite IH, fmap_cons. by rewrite <- app_assoc. }
  by rewrite app_nil_l.
Qed.

Lemma invalid_category_gives_an_error_per_symbol_witness :
  get_market_overview script_get (fun df => length df) (fun _ => 1704067400000)
    0 [Failed (RequestException "timed out")] (Some ["BTCUSDT"; "ETHUSDT"]) "futures" "D"
  = (Returned
       {| ov_success := false;
          ov_overview :=
            [Unquoted "BTCUSDT"
               "Category must be one of ['spot', 'linear', 'inverse', 'option']";
             Unquoted "ETHUSDT"
               "Category must be one of ['spot', 'linear', 'inverse', 'option']"];
          ov_total_symbols := 2;
          ov_successful_fetches := 0;
          ov_interval := "D";
          ov_category := "futures" |}, [Failed (RequestException "timed out")], []).
Proof.
  apply (invalid_category_gives_an_error_per_symbol script_get (fun df => length df)
           (fun _ => 1704067400000) 0 [Failed (RequestException "timed out")]
           ["BTCUSDT"; "ETHUSDT"] "futures" "D").
  - by repeat constructor.
  - done.
  - unfold valid_categories. intros Hin.
    repeat (apply elem_of_cons in Hin as [Hin|Hin]; [discriminate|]).
    by apply elem_of_nil in Hin.
Defined.
